(** * Shop directory API (src/app.js): a shallow embedding and its properties

    The Express application of [src/app.js] keeps shop documents in a
    MongoDB collection (through a Mongoose model), stores uploaded photos
    under [public/uploads/], and asks a reverse-geocoding service for a
    place name.  The development below embeds the five route handlers and
    [getPlaceName] as functions in a small state-and-exception monad over a
    world made of the collection, the set of files on disk and a trace of
    the effects performed. *)

From Stdlib Require Import ZArith Ascii String DecimalString.
From stdpp Require Import base option list gmap strings.

#[local] Set Warnings "-register-all,-abstract-large-number,-clear-no-such-hyp".

(** ** JavaScript values

    Request bodies and the geocoder's response are untyped in the source.
    Numbers are represented by integers: the code only tests them for
    truthiness and lets Mongoose print them. *)

Inductive JsVal : Type :=
  | JsUndefined
  | JsNull
  | JsBool (b : bool)
  | JsNum (n : Z)
  | JsStr (s : string)
  | JsObj (props : list (string * JsVal))
  | JsArr (elems : list JsVal).

(** ToBoolean. *)
Definition truthy (v : JsVal) : bool :=
  match v with
  | JsUndefined | JsNull => false
  | JsBool b => b
  | JsNum n => negb (n =? 0)%Z
  | JsStr s => negb (String.eqb s "")
  | JsObj _ | JsArr _ => true
  end.

(** [a || b]. *)
Definition js_or (a b : JsVal) : JsVal := if truthy a then a else b.

Definition is_string (v : JsVal) : bool :=
  match v with JsStr _ => true | _ => false end.

Fixpoint assoc (k : string) (props : list (string * JsVal)) : option JsVal :=
  match props with
  | [] => None
  | (k', v) :: rest => if String.eqb k k' then Some v else assoc k rest
  end.

Definition string_of_Z (n : Z) : string := NilZero.string_of_int (Z.to_int n).
Definition string_of_nat (n : nat) : string := NilZero.string_of_uint (Nat.to_uint n).

(** ** Documents

    A String path of a Mongoose document is unset, holds a string, or holds
    a value that could not be cast (the pending cast error makes validation
    fail at [save]). *)

Inductive Path : Type :=
  | Unset
  | Str (s : string)
  | CastError.

(** Mongoose's cast to String: null and undefined are kept, strings,
    numbers and booleans are printed, an object with a string [_id] casts
    to that [_id], any other object or array is a cast error. *)
Definition castString (v : JsVal) : Path :=
  match v with
  | JsUndefined | JsNull => Unset
  | JsBool b => Str (if b then "true" else "false")
  | JsNum n => Str (string_of_Z n)
  | JsStr s => Str s
  | JsObj props =>
      match assoc "_id" props with
      | Some (JsStr s) => if String.eqb s "" then CastError else Str s
      | _ => CastError
      end
  | JsArr _ => CastError
  end.

Record Location : Type := mkLocation {
  latitude : Path;
  longitude : Path;
  placeName : Path;
}.

(** [shopSchema]; [_id] is the storage key Mongoose adds to every document. *)
Record Shop : Type := mkShop {
  _id : nat;
  id : string;
  ownerName : Path;
  contactNumber : Path;
  shopNumber : Path;
  address : Path;
  description : Path;
  photo : string;
  timestamp : string;
  location : Location;
}.

(** The [required: true] validator of a String path: the value must be a
    non-empty string. *)
Definition required (p : Path) : bool :=
  match p with
  | Str s => negb (String.eqb s "")
  | Unset | CastError => false
  end.

Definition castable (p : Path) : bool :=
  match p with CastError => false | _ => true end.

(** Validation of a document against [shopSchema], as run before [save]. *)
Definition validate (s : Shop) : bool :=
  negb (String.eqb (id s) "")
  && required (ownerName s)
  && required (contactNumber s)
  && required (shopNumber s)
  && required (address s)
  && required (description s)
  && negb (String.eqb (timestamp s) "")
  && required (latitude (location s))
  && required (longitude (location s))
  && castable (placeName (location s)).

(** ** Dates: [dateTime.create().format('Y-m-d H:M:S')] *)

(** What the getters of the JavaScript [Date] return. *)
Record JsDate : Type := mkDate {
  getFullYear : nat;
  getMonth : nat;
  getDate : nat;
  getHours : nat;
  getMinutes : nat;
  getSeconds : nat;
}.

Definition pad (n : nat) : string :=
  if (n <? 10)%nat then "0" +:+ string_of_nat n else string_of_nat n.

(** The fragments the pattern of the source uses; any other character is
    copied to the output. *)
Definition convert (d : JsDate) (c : ascii) : string :=
  if Ascii.eqb c "Y"%char then string_of_nat (getFullYear d)
  else if Ascii.eqb c "m"%char then pad (getMonth d + 1)
  else if Ascii.eqb c "d"%char then pad (getDate d)
  else if Ascii.eqb c "H"%char then pad (getHours d)
  else if Ascii.eqb c "M"%char then pad (getMinutes d)
  else if Ascii.eqb c "S"%char then pad (getSeconds d)
  else String c "".

Fixpoint format (d : JsDate) (pattern : string) : string :=
  match pattern with
  | EmptyString => ""
  | String c rest => convert d c +:+ format d rest
  end.
Arguments format : simpl never.

(** ** Requests, responses and the outside world *)

(** The fields read from [req.body] by the destructuring of lines 97 and
    126: a field that was not sent is [JsUndefined].  [req.body] itself is
    an [option Body] below: it is undefined when no body parser filled it. *)
Record Body : Type := mkBody {
  body_ownerName : JsVal;
  body_contactNumber : JsVal;
  body_shopNumber : JsVal;
  body_address : JsVal;
  body_description : JsVal;
  body_latitude : JsVal;
  body_longitude : JsVal;
}.

(** [req.file]: the upload multer has stored under [public/uploads/]; its
    [filename] is the one computed at line 44 of the source. *)
Record File : Type := mkFile { filename : string }.

Inductive Json : Type :=
  | JShops (shops : list Shop)
  | JShop (shop : Shop)
  | JError (error : string)
  | JMessage (message : string).

Record Response : Type := mkResponse { status : nat; json : Json }.

(** How the promise of [axios.get] settles.  The source sets no timeout on
    the call; the embedding covers the requests whose call settles. *)
Inductive AxiosResult : Type :=
  | AxiosRejects (message : string)
  | AxiosResolves (data : JsVal).

(** What the outside answers during one request: the geocoder, the uuid
    and ObjectId generators, the clock, and whether the n-th collection
    operation of the request fails. *)
Record Env : Type := mkEnv {
  geo : JsVal -> JsVal -> AxiosResult;
  uuidv4 : string;
  objectId : nat;
  now : JsDate;
  db_fault : nat -> bool;
}.

Inductive Event : Type :=
  | EvFind
  | EvFindOne (k : string)
  | EvInsert (s : Shop)
  | EvUpdate (s : Shop)
  | EvDeleteOne (k : string)
  | EvGeocode (lat lon : JsVal)
  | EvLog (message : string)
  | EvStage (path : string)
  | EvExists (path : string)
  | EvUnlink (path : string).

Record World : Type := mkWorld {
  db : list Shop;
  files : gset string;
  trace : list Event;
}.

Inductive JsError : Type :=
  | AxiosError (message : string)
  | TypeError (message : string)
  | ValidationError
  | DuplicateKey
  | StoreError
  | ENOENT (path : string)
  | MulterError (message : string).

Definition message_of (e : JsError) : string :=
  match e with
  | AxiosError m | TypeError m => m
  | ValidationError => "Shop validation failed"
  | DuplicateKey => "E11000 duplicate key error"
  | StoreError => "store unavailable"
  | ENOENT p => "ENOENT: no such file or directory, unlink '" +:+ p +:+ "'"
  | MulterError m => m
  end.

(** ** The monad of handlers: state and exceptions *)

Inductive Completion (A : Type) : Type :=
  | Normal (a : A)
  | Throw (e : JsError).
Arguments Normal {A} a.
Arguments Throw {A} e.

Definition M (A : Type) : Type := World -> Completion A * World.

Definition ret {A} (a : A) : M A := fun w => (Normal a, w).

Definition bind {A B} (m : M A) (k : A -> M B) : M B :=
  fun w =>
    match m w with
    | (Normal a, w') => k a w'
    | (Throw e, w') => (Throw e, w')
    end.

Definition throw {A} (e : JsError) : M A := fun w => (Throw e, w).

Definition try_catch {A} (m : M A) (handler : JsError -> M A) : M A :=
  fun w =>
    match m w with
    | (Normal a, w') => (Normal a, w')
    | (Throw e, w') => handler e w'
    end.

Definition emit (ev : Event) : M unit :=
  fun w => (Normal tt, mkWorld (db w) (files w) (trace w ++ [ev])).

Declare Scope js_scope.
Delimit Scope js_scope with js.
Notation "'let*' x ':=' m 'in' k" := (bind m (fun x => k))
  (at level 10, x name, m at level 100, k at level 200) : js_scope.
Notation "m ';;' k" := (bind m (fun _ => k))
  (at level 100, k at level 200, right associativity) : js_scope.
Local Open Scope js_scope.

(** ** The collection: [Shop.find], [Shop.findOne], [save], [Shop.deleteOne]

    The [n]-th collection operation of a request throws when the
    environment says the store fails there. *)

Definition has_id (k : string) (s : Shop) : bool := String.eqb (id s) k.
Definition has_oid (o : nat) (s : Shop) : bool := Nat.eqb (_id s) o.

Definition store_op {A} (e : Env) (n : nat) (m : M A) : M A :=
  if db_fault e n then throw StoreError else m.

Definition find (e : Env) (n : nat) : M (list Shop) :=
  store_op e n (fun w => (emit EvFind ;; ret (db w)) w).

(** [Shop.findOne({ id: k })]: the first document with that [id]. *)
Definition findOne (e : Env) (n : nat) (k : string) : M (option Shop) :=
  store_op e n (fun w => (emit (EvFindOne k) ;; ret (List.find (has_id k) (db w))) w).

(** [updateOne({ _id }, ...)]: the first document with that storage key is
    replaced. *)
Fixpoint replace (s : Shop) (l : list Shop) : list Shop :=
  match l with
  | [] => []
  | d :: rest => if has_oid (_id s) d then s :: rest else d :: replace s rest
  end.

Fixpoint remove_first (k : string) (l : list Shop) : list Shop :=
  match l with
  | [] => []
  | d :: rest => if has_id k d then rest else d :: remove_first k rest
  end.

(** [shop.save()].  Validation runs first.  A new document is inserted, and
    the unique indexes on [_id] and [id] reject a duplicate; a document that
    was loaded from the collection is written back under its [_id] (the
    handlers save a loaded document right after finding it, so it is still
    there). *)
Definition save (e : Env) (n : nat) (isNew : bool) (s : Shop) : M unit :=
  if negb (validate s) then throw ValidationError
  else store_op e n
    (fun w =>
       if isNew then
         if existsb (has_id (id s)) (db w) || existsb (has_oid (_id s)) (db w)
         then throw DuplicateKey w
         else (Normal tt, mkWorld (db w ++ [s]) (files w) (trace w ++ [EvInsert s]))
       else (Normal tt, mkWorld (replace s (db w)) (files w) (trace w ++ [EvUpdate s]))).

Definition deleteOne (e : Env) (n : nat) (k : string) : M unit :=
  store_op e n
    (fun w => (Normal tt, mkWorld (remove_first k (db w)) (files w)
                                  (trace w ++ [EvDeleteOne k]))).

(** ** The file system: [fs.existsSync], [fs.unlinkSync], multer *)

(** [path.join(__dirname, 'public', photo)], relative to the application
    directory. *)
Definition public_path (photo : string) : string := "public" +:+ photo.

(** [`/uploads/${req.file.filename}`]. *)
Definition upload_ref (f : File) : string := "/uploads/" +:+ filename f.

Definition existsSync (p : string) : M bool :=
  fun w => (emit (EvExists p) ;; ret (bool_decide (p ∈ files w))) w.

Definition unlinkSync (p : string) : M unit :=
  fun w =>
    if bool_decide (p ∈ files w)
    then (Normal tt, mkWorld (db w) (files w ∖ {[p]}) (trace w ++ [EvUnlink p]))
    else throw (ENOENT p) w.

(** [upload.single('photo')] on an upload it accepts: the middleware runs
    before the handlers of POST and PUT and writes the upload to
    [public/uploads/]. *)
Definition upload_single (file : option File) : M unit :=
  match file with
  | None => ret tt
  | Some f =>
      fun w => (Normal tt,
                mkWorld (db w) ({[public_path (upload_ref f)]} ∪ files w)
                        (trace w ++ [EvStage (public_path (upload_ref f))]))
  end.

(** What multer makes of the multipart body: no file part, a file part
    named [photo] that it stores, or an error (a file under another field
    name, a failed write) that it passes to Express without running the
    handler; on an error it leaves no file behind. *)
Inductive Upload : Type :=
  | NoUpload
  | Stored (f : File)
  | Rejected (message : string).

Definition accepted (file : option File) : Upload :=
  match file with
  | Some f => Stored f
  | None => NoUpload
  end.

(** The middleware as a whole: it yields [req.file] or throws. *)
Definition multer (u : Upload) : M (option File) :=
  match u with
  | NoUpload => upload_single None ;; ret None
  | Stored f => upload_single (Some f) ;; ret (Some f)
  | Rejected m => throw (MulterError m)
  end.

(** The removal of a record's photo, as written at lines 138-140 and
    157-159: [if (photo && fs.existsSync(p)) fs.unlinkSync(p)]. *)
Definition remove_photo (photo : string) : M unit :=
  if negb (String.eqb photo "") then
    let* there := existsSync (public_path photo) in
    if there then unlinkSync (public_path photo) else ret tt
  else ret tt.

(** ** [getPlaceName] *)

Definition axios_get (e : Env) (lat lon : JsVal) : M JsVal :=
  emit (EvGeocode lat lon) ;;
  match geo e lat lon with
  | AxiosRejects m => throw (AxiosError m)
  | AxiosResolves data => ret data
  end.

(** [v.display_name]: reading a property of [null] or [undefined] throws,
    a primitive or an array has no such property. *)
Definition get_display_name (v : JsVal) : M JsVal :=
  match v with
  | JsUndefined =>
      throw (TypeError "Cannot read properties of undefined (reading 'display_name')")
  | JsNull =>
      throw (TypeError "Cannot read properties of null (reading 'display_name')")
  | JsObj props =>
      ret (match assoc "display_name" props with Some x => x | None => JsUndefined end)
  | JsBool _ | JsNum _ | JsStr _ | JsArr _ => ret JsUndefined
  end.

Definition unknown_location : string := "Unknown location".

Definition getPlaceName (e : Env) (latitude longitude : JsVal) : M JsVal :=
  try_catch
    (let* data := axios_get e latitude longitude in
     let* display_name := get_display_name data in
     ret (js_or display_name (JsStr unknown_location)))
    (fun err =>
       emit (EvLog ("Reverse geocoding failed: " +:+ message_of err)) ;;
       ret (JsStr unknown_location)).

(** ** The route handlers *)

Definition timestamp_pattern : string := "Y-m-d H:M:S".

Definition respond (code : nat) (j : Json) : M Response := ret (mkResponse code j).

Definition not_found : M Response := respond 404 (JError "Shop not found").

(** [GET /api/shops] *)
Definition get_shops (e : Env) : M Response :=
  try_catch
    (let* shops := find e 0 in
     respond 200 (JShops shops))
    (fun _ => respond 500 (JError "Failed to fetch shops")).

(** [GET /api/shops/:id] *)
Definition get_shop (e : Env) (params_id : string) : M Response :=
  try_catch
    (let* found := findOne e 0 params_id in
     match found with
     | None => not_found
     | Some shop => respond 200 (JShop shop)
     end)
    (fun _ => respond 500 (JError "Failed to fetch shop")).

(** [new Shop({...})]: the values are cast to the schema's types and the
    defaults fill what is undefined. *)
Definition new_Shop (e : Env) (body : Body) (file : option File) (place : JsVal) : Shop :=
  {| _id := objectId e;
     id := uuidv4 e;
     ownerName := castString (body_ownerName body);
     contactNumber := castString (body_contactNumber body);
     shopNumber := castString (body_shopNumber body);
     address := castString (body_address body);
     description := castString (body_description body);
     photo := match file with Some f => upload_ref f | None => "" end;
     timestamp := format (now e) timestamp_pattern;
     location :=
       {| latitude := castString (body_latitude body);
          longitude := castString (body_longitude body);
          placeName := match place with
                       | JsUndefined => Str unknown_location
                       | _ => castString place
                       end |} |}.

(** [const { ownerName, ... } = req.body]: destructuring [undefined]
    throws a TypeError. *)
Definition destructure (req_body : option Body) : M Body :=
  match req_body with
  | Some body => ret body
  | None =>
      throw (TypeError "Cannot destructure property 'ownerName' of 'req.body' as it is undefined.")
  end.

(** The handler of [POST /api/shops], lines 95-118, run after
    [upload.single('photo')]. *)
Definition create_shop_handler (e : Env) (req_body : option Body)
    (file : option File) : M Response :=
  try_catch
    (let* body := destructure req_body in
     let* place := getPlaceName e (body_latitude body) (body_longitude body) in
     let shop := new_Shop e body file place in
     save e 0 true shop ;;
     respond 201 (JShop shop))
    (fun _ => respond 500 (JError "Failed to create shop")).

(** The handler on a request whose body was parsed. *)
Definition create_shop (e : Env) (body : Body) (file : option File) : M Response :=
  create_shop_handler e (Some body) file.

(** The assignments of lines 129-135. *)
Definition assign_fields (e : Env) (body : Body) (place : JsVal) (shop : Shop) : Shop :=
  {| _id := _id shop;
     id := id shop;
     ownerName := castString (body_ownerName body);
     contactNumber := castString (body_contactNumber body);
     shopNumber := castString (body_shopNumber body);
     address := castString (body_address body);
     description := castString (body_description body);
     photo := photo shop;
     timestamp := format (now e) timestamp_pattern;
     location :=
       {| latitude := castString (body_latitude body);
          longitude := castString (body_longitude body);
          placeName := castString place |} |}.

Definition set_photo (p : string) (shop : Shop) : Shop :=
  {| _id := _id shop; id := id shop; ownerName := ownerName shop;
     contactNumber := contactNumber shop; shopNumber := shopNumber shop;
     address := address shop; description := description shop;
     photo := p; timestamp := timestamp shop; location := location shop |}.

(** The handler of [PUT /api/shops/:id], lines 121-149, run after
    [upload.single('photo')]. *)
Definition update_shop_handler (e : Env) (params_id : string)
    (req_body : option Body) (file : option File) : M Response :=
  try_catch
    (let* found := findOne e 0 params_id in
     match found with
     | None => not_found
     | Some shop =>
         let* body := destructure req_body in
         let* place := getPlaceName e (body_latitude body) (body_longitude body) in
         let shop := assign_fields e body place shop in
         let* shop :=
           match file with
           | Some f =>
               remove_photo (photo shop) ;;
               ret (set_photo (upload_ref f) shop)
           | None => ret shop
           end in
         save e 1 false shop ;;
         respond 200 (JShop shop)
     end)
    (fun _ => respond 500 (JError "Failed to update shop")).

(** The handler on a request whose body was parsed. *)
Definition update_shop (e : Env) (params_id : string) (body : Body)
    (file : option File) : M Response :=
  update_shop_handler e params_id (Some body) file.

(** [DELETE /api/shops/:id] *)
Definition delete_shop (e : Env) (params_id : string) : M Response :=
  try_catch
    (let* found := findOne e 0 params_id in
     match found with
     | None => not_found
     | Some shop =>
         remove_photo (photo shop) ;;
         deleteOne e 1 params_id ;;
         respond 200 (JMessage "Shop deleted")
     end)
    (fun _ => respond 500 (JError "Failed to delete shop")).

(** The routes of POST and PUT on a request whose upload multer accepted and
    whose body was parsed: the write of the upload, then the handler. *)
Definition post_route (e : Env) (body : Body) (file : option File) : M Response :=
  upload_single file ;; create_shop e body file.

Definition put_route (e : Env) (params_id : string) (body : Body)
    (file : option File) : M Response :=
  upload_single file ;; update_shop e params_id body file.

(** ** Pure readings of the handlers

    What each handler computes, as functions of the oracle's answer; the
    run lemmas below show that the monadic code computes exactly these. *)

(** The truthy [display_name] of the geocoder's answer, if it has one. *)
Definition display_name_of (r : AxiosResult) : option JsVal :=
  match r with
  | AxiosRejects _ => None
  | AxiosResolves (JsObj props) =>
      match assoc "display_name" props with
      | Some v => if truthy v then Some v else None
      | None => None
      end
  | AxiosResolves _ => None
  end.

(** The value [getPlaceName] returns. *)
Definition resolve (r : AxiosResult) : JsVal :=
  match display_name_of r with
  | Some v => v
  | None => JsStr unknown_location
  end.

(** The error the [try] block of [getPlaceName] catches, if any. *)
Definition caught (r : AxiosResult) : option JsError :=
  match r with
  | AxiosRejects m => Some (AxiosError m)
  | AxiosResolves JsUndefined =>
      Some (TypeError "Cannot read properties of undefined (reading 'display_name')")
  | AxiosResolves JsNull =>
      Some (TypeError "Cannot read properties of null (reading 'display_name')")
  | AxiosResolves _ => None
  end.

Definition geo_events (e : Env) (lat lon : JsVal) : list Event :=
  EvGeocode lat lon ::
  match caught (geo e lat lon) with
  | Some err => [EvLog ("Reverse geocoding failed: " +:+ message_of err)]
  | None => []
  end.
Arguments geo_events : simpl never.

Definition with_trace (w : World) (evs : list Event) : World :=
  mkWorld (db w) (files w) (trace w ++ evs).

(** A store with no dangling reference: every photo a record names is on
    disk. *)
Definition photo_on_disk (fs : gset string) (s : Shop) : bool :=
  String.eqb (photo s) "" || bool_decide (public_path (photo s) ∈ fs).

Definition consistent (w : World) : bool := forallb (photo_on_disk (files w)) (db w).

(** The body passes the [required] validators of the schema. *)
Definition valid_body (b : Body) : bool :=
  required (castString (body_ownerName b))
  && required (castString (body_contactNumber b))
  && required (castString (body_shopNumber b))
  && required (castString (body_address b))
  && required (castString (body_description b))
  && required (castString (body_latitude b))
  && required (castString (body_longitude b)).

(** One of the five required text fields is absent or empty. *)
Definition absent_or_empty (v : JsVal) : bool :=
  match v with
  | JsUndefined => true
  | JsStr s => String.eqb s ""
  | _ => false
  end.

Definition missing_text_field (b : Body) : bool :=
  absent_or_empty (body_ownerName b)
  || absent_or_empty (body_contactNumber b)
  || absent_or_empty (body_shopNumber b)
  || absent_or_empty (body_address b)
  || absent_or_empty (body_description b).

(** The identifiers the environment hands out are not in the collection. *)
Definition fresh (e : Env) (w : World) : bool :=
  negb (existsb (has_id (uuidv4 e)) (db w))
  && negb (existsb (has_oid (objectId e)) (db w)).

Definition is_fs_event (ev : Event) : bool :=
  match ev with
  | EvStage _ | EvExists _ | EvUnlink _ => true
  | _ => false
  end.

Definition is_write_event (ev : Event) : bool :=
  match ev with
  | EvInsert _ | EvUpdate _ | EvDeleteOne _ => true
  | _ => false
  end.

Definition is_geocode_event (ev : Event) : bool :=
  match ev with EvGeocode _ _ => true | _ => false end.





(** The document [create_shop] builds and the one [update_shop] writes
    back. *)
Definition created (e : Env) (body : Body) (file : option File) : Shop :=
  new_Shop e body file (resolve (geo e (body_latitude body) (body_longitude body))).

Definition updated (e : Env) (body : Body) (file : option File) (old : Shop) : Shop :=
  let shop :=
    assign_fields e body
      (resolve (geo e (body_latitude body) (body_longitude body))) old in
  match file with
  | Some f => set_photo (upload_ref f) shop
  | None => shop
  end.

(** The files left by [remove_photo] and the file-system calls it makes. *)
Definition removed (photo : string) (fs : gset string) : gset string :=
  if negb (String.eqb photo "") && bool_decide (public_path photo ∈ fs)
  then fs ∖ {[public_path photo]}
  else fs.

Definition removal_events (photo : string) (fs : gset string) : list Event :=
  if String.eqb photo "" then []
  else EvExists (public_path photo) ::
       (if bool_decide (public_path photo ∈ fs) then [EvUnlink (public_path photo)] else []).

Definition update_events (e : Env) (k : string) (body : Body) (file : option File)
    (old : Shop) (fs : gset string) : list Event :=
  EvFindOne k :: geo_events e (body_latitude body) (body_longitude body)
  ++ match file with
     | Some _ => removal_events (photo old) fs
     | None => []
     end.

Definition update_files (file : option File) (old : Shop) (fs : gset string) : gset string :=
  match file with
  | Some _ => removed (photo old) fs
  | None => fs
  end.

(** ** Serving requests *)

Inductive Request : Type :=
  | GetShops
  | GetShop (params_id : string)
  | PostShop (req_body : option Body) (upload : Upload)
  | PutShop (params_id : string) (req_body : option Body) (upload : Upload)
  | DeleteShop (params_id : string).

Definition route (e : Env) (r : Request) : M Response :=
  match r with
  | GetShops => get_shops e
  | GetShop k => get_shop e k
  | PostShop req_body upload =>
      let* file := multer upload in create_shop_handler e req_body file
  | PutShop k req_body upload =>
      let* file := multer upload in update_shop_handler e k req_body file
  | DeleteShop k => delete_shop e k
  end.

(** Express answers 500 when the middleware or a handler lets an error
    escape. *)
Definition serve (e : Env) (r : Request) (w : World) : Response * World :=
  match route e r w with
  | (Normal res, w') => (res, w')
  | (Throw _, w') => (mkResponse 500 (JError "Internal Server Error"), w')
  end.

(** The identifier a request created, read off its response. *)
Definition created_id (r : Request) (res : Response) : option string :=
  match r, res with
  | PostShop _ _, mkResponse 201 (JShop s) => Some (id s)
  | _, _ => None
  end.

(** The identifiers created by a sequence of requests, each served in its
    own environment. *)
Fixpoint created_ids (reqs : list (Env * Request)) (w : World) : list string :=
  match reqs with
  | [] => []
  | (e, r) :: rest =>
      let (res, w') := serve e r w in
      match created_id r res with
      | Some i => i :: created_ids rest w'
      | None => created_ids rest w'
      end
  end.

Fixpoint serve_all (reqs : list (Env * Request)) (w : World) : World :=
  match reqs with
  | [] => w
  | (e, r) :: rest => serve_all rest (snd (serve e r w))
  end.

(** What the unique indexes on [_id] and [id] maintain. *)
Definition well_keyed (l : list Shop) : Prop :=
  NoDup (_id <$> l) /\ NoDup (id <$> l).

(** ** Concrete requests and worlds *)

Definition empty_world : World := mkWorld [] ∅ [].

Definition noon : JsDate := mkDate 2024 0 5 9 3 7.

Definition london : AxiosResult :=
  AxiosResolves (JsObj [("place_id", JsNum 42); ("display_name", JsStr "London, UK")]).

Definition env_london : Env :=
  mkEnv (fun _ _ => london) "3f0c1a52-7d1e-4c55-9a43-0d1c6a0f2b11" 1 noon (fun _ => false).

(** The geocoder is unreachable. *)
Definition env_offline : Env :=
  mkEnv (fun _ _ => AxiosRejects "getaddrinfo ENOTFOUND nominatim.openstreetmap.org")
        "9b2e4d10-55aa-4f0e-8c77-6a1f0e9d3c22" 2 noon (fun _ => false).

(** The geocoder answers with a [display_name] that is not a string. *)
Definition env_numeric : Env :=
  mkEnv (fun _ _ => AxiosResolves (JsObj [("display_name", JsNum 42)]))
        "5d7a9c33-1b2f-4e6a-b0c8-2f4e6a8c0e33" 3 noon (fun _ => false).

(** The store fails at the second collection operation of the request. *)
Definition env_save_fails : Env :=
  mkEnv (fun _ _ => london) "0a1b2c3d-4e5f-4a6b-8c7d-9e0f1a2b3c44" 4 noon
        (fun n => Nat.eqb n 1).

Definition body_ann : Body :=
  mkBody (JsStr "Ann") (JsStr "555-0100") (JsStr "12") (JsStr "1 High Street")
         (JsStr "Bakery") (JsStr "51.5074") (JsStr "-0.1278").

Definition body_no_owner : Body :=
  mkBody JsUndefined (JsStr "555-0100") (JsStr "12") (JsStr "1 High Street")
         (JsStr "Bakery") (JsStr "51.5074") (JsStr "-0.1278").

Definition old_photo : File := mkFile "1700000000000.png".
Definition new_photo : File := mkFile "1700000009999.jpg".

Definition shop_ann : Shop :=
  {| _id := 10; id := "abc"; ownerName := Str "Ann"; contactNumber := Str "555-0100";
     shopNumber := Str "12"; address := Str "1 High Street"; description := Str "Bakery";
     photo := upload_ref old_photo; timestamp := "2023-11-14 22:13:20";
     location := {| latitude := Str "51.5074"; longitude := Str "-0.1278";
                    placeName := Str "London, UK" |} |}.

(** One shop, whose photo is on disk, and a freshly staged upload. *)
Definition world_ann : World :=
  mkWorld [shop_ann]
          {[ public_path (upload_ref old_photo); public_path (upload_ref new_photo) ]}
          [].

(** ** Predicates on traces *)

Definition quiet (ev : Event) : bool := negb (is_fs_event ev || is_write_event ev).

(** The order "persist the record, then remove the old file": no file is
    unlinked before a record has been written. *)
Fixpoint persists_first (evs : list Event) : bool :=
  match evs with
  | [] => true
  | EvUnlink _ :: _ => false
  | (EvInsert _ | EvUpdate _) :: _ => true
  | _ :: rest => persists_first rest
  end.

(** The uuids the generator hands to the create requests of a sequence. *)
Fixpoint minted (reqs : list (Env * Request)) : list string :=
  match reqs with
  | [] => []
  | (e, PostShop _ _) :: rest => uuidv4 e :: minted rest
  | _ :: rest => minted rest
  end.

(** ** Further predicates and concrete worlds *)

(** Every record of the collection passes the validation of [shopSchema]. *)
Definition all_valid (l : list Shop) : bool := forallb validate l.

(** The number of calls made to the geocoder. *)
Definition geocoder_calls (evs : list Event) : nat :=
  length (List.filter is_geocode_event evs).

(** The uuid generator hands out an identifier that is already taken. *)
Definition env_collides : Env :=
  mkEnv (fun _ _ => london) "abc" 77 noon (fun _ => false).

Definition shop_bob : Shop :=
  {| _id := 11; id := "bob"; ownerName := Str "Bob"; contactNumber := Str "555-0111";
     shopNumber := Str "7"; address := Str "2 Low Road"; description := Str "Books";
     photo := ""; timestamp := "2023-12-01 08:00:00";
     location := {| latitude := Str "48.8566"; longitude := Str "2.3522";
                    placeName := Str "Paris, France" |} |}.

(** Two shops, one with a photo on disk and one without a photo. *)
Definition world_two : World :=
  mkWorld [shop_ann; shop_bob] {[ public_path (upload_ref old_photo) ]} [].

(** The handler runs and finds a body to destructure: multer did not reject
    the upload and [req.body] is defined. *)
Definition parsed (req_body : option Body) (u : Upload) : bool :=
  match u, req_body with
  | Rejected _, _ => false
  | _, None => false
  | _, Some _ => true
  end.

(** A create request lacks a required text field: [req.body] is undefined,
    or one of the five fields is absent or empty. *)
Definition lacks_text_field (req_body : option Body) : bool :=
  match req_body with
  | None => true
  | Some body => missing_text_field body
  end.

(** Two shops without a photo. *)
Definition shop_cleo : Shop :=
  {| _id := 12; id := "cleo"; ownerName := Str "Cleo"; contactNumber := Str "555-0122";
     shopNumber := Str "3"; address := Str "9 Mill Lane"; description := Str "Flowers";
     photo := ""; timestamp := "2023-12-02 10:30:00";
     location := {| latitude := Str "41.9028"; longitude := Str "12.4964";
                    placeName := Str "Rome, Italy" |} |}.

Definition world_shelf : World := mkWorld [shop_bob; shop_cleo] ∅ [].

(** ** Run lemmas *)

Ltac run := unfold bind, ret, throw, try_catch, emit, respond, not_found, store_op; simpl.

Ltac proj := cbn [fst snd db files trace status json].

Ltac norm_trace := repeat (progress (simpl; rewrite <- ?app_assoc, ?app_nil_r)).

Lemma getPlaceName_run (e : Env) (lat lon : JsVal) (w : World) :
  getPlaceName e lat lon w
  = (Normal (resolve (geo e lat lon)), with_trace w (geo_events e lat lon)).
Proof.
  unfold getPlaceName, axios_get, resolve, geo_events, with_trace, display_name_of, js_or.
  run.
  destruct (geo e lat lon) as [m | data]; simpl.
  - by rewrite <- app_assoc.
  - destruct data as [ | | b | n | s | props | elems]; simpl;
      rewrite <- ?app_assoc; try reflexivity.
    destruct (assoc "display_name" props) as [v | ]; simpl; [ | done].
    by destruct (truthy v).
Qed.

Lemma resolve_truthy (r : AxiosResult) : truthy (resolve r) = true.
Proof.
  unfold resolve, display_name_of.
  destruct r as [m | data]; [done | ].
  destruct data as [ | | b | n | s | props | elems]; try done.
  destruct (assoc "display_name" props) as [v | ]; [ | done].
  by destruct (truthy v) eqn:Hv.
Qed.

Lemma remove_photo_run (photo : string) (w : World) :
  remove_photo photo w
  = (Normal tt, mkWorld (db w) (removed photo (files w))
                        (trace w ++ removal_events photo (files w))).
Proof.
  unfold remove_photo, removed, removal_events, existsSync, unlinkSync. run.
  destruct w as [d fs t]; simpl.
  destruct (String.eqb photo ""); simpl.
  - by rewrite app_nil_r.
  - destruct (decide (public_path photo ∈ fs)) as [Hin | Hout].
    + rewrite !bool_decide_eq_true_2 by done. simpl. by rewrite <- app_assoc.
    + by rewrite !bool_decide_eq_false_2 by done.
Qed.

Lemma create_shop_run (e : Env) (body : Body) (file : option File) (w : World) :
  create_shop e body file w
  = let shop := created e body file in
    let w1 := with_trace w (geo_events e (body_latitude body) (body_longitude body)) in
    if validate shop && negb (db_fault e 0) && fresh e w
    then (Normal (mkResponse 201 (JShop shop)),
          mkWorld (db w ++ [shop]) (files w) (trace w1 ++ [EvInsert shop]))
    else (Normal (mkResponse 500 (JError "Failed to create shop")), w1).
Proof.
  unfold create_shop, create_shop_handler, try_catch.
  unfold bind at 1. cbn [destructure ret]. unfold bind at 1.
  rewrite getPlaceName_run. fold (created e body file).
  unfold save, fresh. run.
  destruct (validate (created e body file)); simpl; [ | done].
  destruct (db_fault e 0); simpl; [done | ].
  unfold created at 1 2. simpl.
  destruct (existsb (has_id (uuidv4 e)) (db w)); simpl; [done | ].
  by destruct (existsb (has_oid (objectId e)) (db w)).
Qed.

Lemma findOne_run (e : Env) (n : nat) (k : string) (w : World) :
  findOne e n k w
  = if db_fault e n then (Throw StoreError, w)
    else (Normal (List.find (has_id k) (db w)), with_trace w [EvFindOne k]).
Proof. unfold findOne. run. by destruct (db_fault e n). Qed.

Lemma update_shop_run (e : Env) (k : string) (body : Body) (file : option File)
    (w : World) :
  update_shop e k body file w
  = if db_fault e 0
    then (Normal (mkResponse 500 (JError "Failed to update shop")), w)
    else match List.find (has_id k) (db w) with
         | None => (Normal (mkResponse 404 (JError "Shop not found")),
                    with_trace w [EvFindOne k])
         | Some old =>
             let shop := updated e body file old in
             let fs := update_files file old (files w) in
             let evs := update_events e k body file old (files w) in
             if validate shop && negb (db_fault e 1)
             then (Normal (mkResponse 200 (JShop shop)),
                   mkWorld (replace shop (db w)) fs (trace w ++ evs ++ [EvUpdate shop]))
             else (Normal (mkResponse 500 (JError "Failed to update shop")),
                   mkWorld (db w) fs (trace w ++ evs))
         end.
Proof.
  unfold update_shop, update_shop_handler, try_catch, bind at 1.
  rewrite findOne_run.
  destruct (db_fault e 0); [done | ].
  destruct (List.find (has_id k) (db w)) as [old | ]; [ | done].
  unfold bind at 1. cbn [destructure ret]. unfold bind at 1.
  rewrite getPlaceName_run.
  unfold updated, update_files, update_events, with_trace.
  set (shop := assign_fields e body _ old).
  generalize (geo_events e (body_latitude body) (body_longitude body)) as ge.
  intros ge. destruct file as [f | ].
  - unfold bind at 1. unfold bind at 1. rewrite remove_photo_run.
    generalize (removal_events (photo shop) (files w)) as re. intros re.
    unfold save. run.
    destruct (validate (set_photo (upload_ref f) shop)); simpl;
      [ | by norm_trace].
    destruct (db_fault e 1); simpl; by norm_trace.
  - unfold save. run.
    destruct (validate shop); simpl; [ | by norm_trace].
    destruct (db_fault e 1); simpl; by norm_trace.
Qed.

Lemma delete_shop_run (e : Env) (k : string) (w : World) :
  delete_shop e k w
  = if db_fault e 0
    then (Normal (mkResponse 500 (JError "Failed to delete shop")), w)
    else match List.find (has_id k) (db w) with
         | None => (Normal (mkResponse 404 (JError "Shop not found")),
                    with_trace w [EvFindOne k])
         | Some old =>
             let fs := removed (photo old) (files w) in
             let evs := EvFindOne k :: removal_events (photo old) (files w) in
             if db_fault e 1
             then (Normal (mkResponse 500 (JError "Failed to delete shop")),
                   mkWorld (db w) fs (trace w ++ evs))
             else (Normal (mkResponse 200 (JMessage "Shop deleted")),
                   mkWorld (remove_first k (db w)) fs (trace w ++ evs ++ [EvDeleteOne k]))
         end.
Proof.
  unfold delete_shop, try_catch, bind at 1.
  rewrite findOne_run.
  destruct (db_fault e 0); [done | ].
  destruct (List.find (has_id k) (db w)) as [old | ]; [ | done].
  unfold bind at 1. rewrite remove_photo_run. unfold with_trace. simpl.
  generalize (removal_events (photo old) (files w)) as re. intros re.
  unfold deleteOne. run.
  destruct (db_fault e 1); simpl; by norm_trace.
Qed.

Lemma get_shop_run (e : Env) (k : string) (w : World) :
  get_shop e k w
  = if db_fault e 0
    then (Normal (mkResponse 500 (JError "Failed to fetch shop")), w)
    else match List.find (has_id k) (db w) with
         | None => (Normal (mkResponse 404 (JError "Shop not found")),
                    with_trace w [EvFindOne k])
         | Some shop => (Normal (mkResponse 200 (JShop shop)), with_trace w [EvFindOne k])
         end.
Proof.
  unfold get_shop, try_catch, bind at 1.
  rewrite findOne_run.
  destruct (db_fault e 0); [done | ].
  by destruct (List.find (has_id k) (db w)).
Qed.

(** ** Requests without a body, uploads that multer rejects *)

(** The handlers on any request, reduced to the handlers on a parsed body:
    with [req.body] undefined the destructuring throws inside the [try]
    block, before the geocoder is asked. *)
Lemma create_shop_handler_run (e : Env) (req_body : option Body) (file : option File)
    (w : World) :
  create_shop_handler e req_body file w
  = match req_body with
    | Some body => create_shop e body file w
    | None => (Normal (mkResponse 500 (JError "Failed to create shop")), w)
    end.
Proof. by destruct req_body. Qed.

Lemma update_shop_handler_run (e : Env) (k : string) (req_body : option Body)
    (file : option File) (w : World) :
  update_shop_handler e k req_body file w
  = match req_body with
    | Some body => update_shop e k body file w
    | None =>
        if db_fault e 0
        then (Normal (mkResponse 500 (JError "Failed to update shop")), w)
        else match List.find (has_id k) (db w) with
             | None => (Normal (mkResponse 404 (JError "Shop not found")),
                        with_trace w [EvFindOne k])
             | Some _ => (Normal (mkResponse 500 (JError "Failed to update shop")),
                          with_trace w [EvFindOne k])
             end
    end.
Proof.
  destruct req_body as [body | ]; [done | ].
  unfold update_shop_handler, try_catch, bind at 1. rewrite findOne_run.
  destruct (db_fault e 0); [done | ].
  by destruct (List.find (has_id k) (db w)).
Qed.

(** What multer leaves for the handler: either it throws and the handler
    does not run, or the handler runs on [req.file] in a world that differs
    by the stored upload only. *)
Lemma multer_cases (u : Upload) (w : World) :
  (exists m, u = Rejected m /\ multer u w = (Throw (MulterError m), w))
  \/ (exists file w1 evs,
        u = accepted file /\ multer u w = (Normal file, w1)
        /\ upload_single file w = (Normal tt, w1)
        /\ db w1 = db w
        /\ files w1 = match file with
                      | Some f => {[public_path (upload_ref f)]} ∪ files w
                      | None => files w
                      end
        /\ trace w1 = trace w ++ evs
        /\ geocoder_calls evs = 0
        /\ forallb (fun ev => negb (is_write_event ev)) evs = true
        /\ existsb is_geocode_event evs = false).
Proof.
  destruct u as [ | f | m].
  - right. exists None, w, []. by rewrite app_nil_r.
  - right. by eexists (Some f), _, [_].
  - left. by exists m.
Qed.

Lemma route_post_cases (e : Env) (req_body : option Body) (u : Upload) (w : World) :
  (exists m, u = Rejected m /\ route e (PostShop req_body u) w = (Throw (MulterError m), w))
  \/ (exists file w1 evs,
        u = accepted file
        /\ route e (PostShop req_body u) w = create_shop_handler e req_body file w1
        /\ upload_single file w = (Normal tt, w1)
        /\ db w1 = db w
        /\ files w1 = match file with
                      | Some f => {[public_path (upload_ref f)]} ∪ files w
                      | None => files w
                      end
        /\ trace w1 = trace w ++ evs
        /\ geocoder_calls evs = 0
        /\ forallb (fun ev => negb (is_write_event ev)) evs = true
        /\ existsb is_geocode_event evs = false).
Proof.
  cbn [route]. unfold bind.
  destruct (multer_cases u w) as [(m & -> & ->) | (file & w1 & evs & -> & -> & H)].
  - left. by exists m.
  - right. by exists file, w1, evs.
Qed.

Lemma route_put_cases (e : Env) (k : string) (req_body : option Body) (u : Upload)
    (w : World) :
  (exists m, u = Rejected m /\ route e (PutShop k req_body u) w = (Throw (MulterError m), w))
  \/ (exists file w1 evs,
        u = accepted file
        /\ route e (PutShop k req_body u) w = update_shop_handler e k req_body file w1
        /\ upload_single file w = (Normal tt, w1)
        /\ db w1 = db w
        /\ files w1 = match file with
                      | Some f => {[public_path (upload_ref f)]} ∪ files w
                      | None => files w
                      end
        /\ trace w1 = trace w ++ evs
        /\ geocoder_calls evs = 0
        /\ forallb (fun ev => negb (is_write_event ev)) evs = true
        /\ existsb is_geocode_event evs = false).
Proof.
  cbn [route]. unfold bind.
  destruct (multer_cases u w) as [(m & -> & ->) | (file & w1 & evs & -> & -> & H)].
  - left. by exists m.
  - right. by exists file, w1, evs.
Qed.

(** ** General facts *)

Lemma find_none_iff (k : string) (l : list Shop) :
  List.find (has_id k) l = None <-> (forall s, s ∈ l -> id s <> k).
Proof.
  induction l as [ | d l IH]; simpl.
  - split; [ | done]. intros _ s Hs. by apply elem_of_nil in Hs.
  - unfold has_id at 1. destruct (String.eqb_spec (id d) k) as [Heq | Hne].
    + split; [done | ]. intros H. exfalso. apply (H d); [left | done].
    + rewrite IH. split.
      * intros H s Hs. apply elem_of_cons in Hs as [-> | Hs]; [done | by apply H].
      * intros H s Hs. apply H. by right.
Qed.

Lemma find_has_id (k : string) (l : list Shop) (s : Shop) :
  List.find (has_id k) l = Some s -> s ∈ l /\ id s = k.
Proof.
  intros H. apply find_some in H as [Hin Hk]. split.
  - by apply list_elem_of_In.
  - unfold has_id in Hk. by apply String.eqb_eq in Hk.
Qed.

Lemma existsb_has_id_false (k : string) (l : list Shop) :
  existsb (has_id k) l = false <-> (forall s, s ∈ l -> id s <> k).
Proof.
  rewrite <- find_none_iff. induction l as [ | d l IH]; simpl; [done | ].
  destruct (has_id k d); simpl; [done | apply IH].
Qed.

Lemma append_inj (p a b : string) : p +:+ a = p +:+ b -> a = b.
Proof.
  induction p as [ | c p IH]; [done | ].
  change (String c (p +:+ a) = String c (p +:+ b) -> a = b).
  intros H. apply IH. congruence.
Qed.

Lemma public_path_inj (a b : string) : public_path a = public_path b -> a = b.
Proof. apply append_inj. Qed.

Lemma removed_spec (photo : string) (fs : gset string) (p : string) :
  p ∈ removed photo fs <-> p ∈ fs /\ (photo = "" \/ p <> public_path photo).
Proof.
  unfold removed. destruct (String.eqb_spec photo "") as [-> | Hne]; simpl.
  - naive_solver.
  - case_bool_decide; set_solver.
Qed.

Lemma timestamp_nonempty (d : JsDate) : format d timestamp_pattern <> "".
Proof.
  change (format d timestamp_pattern)
    with (string_of_nat (getFullYear d) +:+ "-" +:+ format d "m-d H:M:S").
  destruct (string_of_nat (getFullYear d)); discriminate.
Qed.

Lemma validate_created (e : Env) (body : Body) (file : option File) :
  validate (created e body file)
  = negb (String.eqb (uuidv4 e) "") && valid_body body
    && castable (castString (resolve (geo e (body_latitude body) (body_longitude body)))).
Proof.
  unfold validate, created, new_Shop, valid_body. simpl.
  pose proof (timestamp_nonempty (now e)) as Hts.
  apply String.eqb_neq in Hts. rewrite Hts. simpl.
  pose proof (resolve_truthy (geo e (body_latitude body) (body_longitude body))) as Ht.
  destruct (resolve _) eqn:Hr; try discriminate Ht;
    rewrite ?andb_true_r; by rewrite <- ?andb_assoc.
Qed.

Lemma validate_updated (e : Env) (body : Body) (file : option File) (old : Shop) :
  validate (updated e body file old)
  = negb (String.eqb (id old) "") && valid_body body
    && castable (castString (resolve (geo e (body_latitude body) (body_longitude body)))).
Proof.
  unfold validate, updated, valid_body.
  pose proof (timestamp_nonempty (now e)) as Hts.
  apply String.eqb_neq in Hts.
  destruct file as [f | ]; simpl; rewrite Hts; simpl;
    rewrite ?andb_true_r; by rewrite <- ?andb_assoc.
Qed.

Lemma create_shop_ok (e : Env) (body : Body) (file : option File) (w : World) :
  validate (created e body file) = true -> db_fault e 0 = false -> fresh e w = true ->
  create_shop e body file w
  = (Normal (mkResponse 201 (JShop (created e body file))),
     mkWorld (db w ++ [created e body file]) (files w)
             (trace w ++ geo_events e (body_latitude body) (body_longitude body)
                     ++ [EvInsert (created e body file)])).
Proof.
  intros Hv Hf Hfresh. rewrite create_shop_run. simpl.
  rewrite Hv, Hf, Hfresh. simpl. by rewrite <- app_assoc.
Qed.

Lemma create_shop_201 (e : Env) (body : Body) (file : option File) (w : World)
    (shop : Shop) :
  fst (create_shop e body file w) = Normal (mkResponse 201 (JShop shop)) ->
  shop = created e body file
  /\ validate shop = true /\ db_fault e 0 = false /\ fresh e w = true
  /\ db (snd (create_shop e body file w)) = db w ++ [shop].
Proof.
  rewrite create_shop_run. simpl.
  destruct (validate (created e body file)) eqn:Hv; simpl; [ | discriminate].
  destruct (db_fault e 0); simpl; [discriminate | ].
  destruct (fresh e w); simpl; [ | discriminate].
  intros [= <-]. by rewrite Hv.
Qed.

Lemma update_shop_ok (e : Env) (k : string) (body : Body) (file : option File)
    (w : World) (old : Shop) :
  List.find (has_id k) (db w) = Some old ->
  db_fault e 0 = false -> db_fault e 1 = false ->
  validate (updated e body file old) = true ->
  update_shop e k body file w
  = (Normal (mkResponse 200 (JShop (updated e body file old))),
     mkWorld (replace (updated e body file old) (db w))
             (update_files file old (files w))
             (trace w ++ update_events e k body file old (files w)
                     ++ [EvUpdate (updated e body file old)])).
Proof.
  intros Hfind Hf0 Hf1 Hv. rewrite update_shop_run, Hf0, Hfind. simpl.
  by rewrite Hv, Hf1.
Qed.

Lemma update_shop_200 (e : Env) (k : string) (body : Body) (file : option File)
    (w : World) (shop : Shop) :
  fst (update_shop e k body file w) = Normal (mkResponse 200 (JShop shop)) ->
  exists old,
    List.find (has_id k) (db w) = Some old
    /\ shop = updated e body file old
    /\ validate shop = true /\ db_fault e 0 = false /\ db_fault e 1 = false
    /\ db (snd (update_shop e k body file w)) = replace shop (db w).
Proof.
  rewrite update_shop_run.
  destruct (db_fault e 0); [discriminate | ].
  destruct (List.find (has_id k) (db w)) as [old | ]; [ | discriminate].
  simpl. destruct (validate (updated e body file old)) eqn:Hv; simpl; [ | discriminate].
  destruct (db_fault e 1); simpl; [discriminate | ].
  intros [= <-]. exists old. by rewrite Hv.
Qed.

Lemma updated_keys (e : Env) (body : Body) (file : option File) (old : Shop) :
  _id (updated e body file old) = _id old /\ id (updated e body file old) = id old.
Proof. unfold updated. by destruct file. Qed.

Lemma elem_of_replace (s old : Shop) (l : list Shop) :
  old ∈ l -> _id s = _id old -> s ∈ replace s l.
Proof.
  intros Hin Hk. induction l as [ | d l IH]; [by apply elem_of_nil in Hin | ].
  simpl. unfold has_oid at 1. destruct (Nat.eqb_spec (_id d) (_id s)) as [Heq | Hne].
  - left.
  - right. apply IH. apply elem_of_cons in Hin as [-> | Hin]; [congruence | done].
Qed.

Lemma resolve_fallback (r : AxiosResult) :
  display_name_of r = None -> resolve r = JsStr unknown_location.
Proof. unfold resolve. by intros ->. Qed.

(** ** C2: the enrichment fallback *)

(** Against C2 as stated: a geocoder answering with a numeric
    [display_name] makes [getPlaceName] return that number, neither a string
    nor the sentinel. *)
Lemma getPlaceName_returns_number :
  fst (getPlaceName env_numeric (JsStr "51.5074") (JsStr "-0.1278") empty_world)
  = Normal (JsNum 42)
  /\ is_string (JsNum 42) = false
  /\ JsNum 42 <> JsStr unknown_location.
Proof. repeat split; first [reflexivity | discriminate]. Qed.

(** C2 (amended): [getPlaceName] never throws and touches neither the
    collection nor the files.  It returns the sentinel whenever the answer
    of the geocoder has no truthy [display_name] (the call was rejected, the
    data is null or undefined, the property is missing or falsy), and returns
    the [display_name] itself otherwise, a string whenever the geocoder sent
    a string.  A create or an update made when there is no truthy
    [display_name], with a valid body and a working store, succeeds and
    stores the sentinel as place name. *)
Theorem getPlaceName_fallback (e : Env) (body : Body) (w : World) :
  let lat := body_latitude body in
  let lon := body_longitude body in
  (exists v w',
      getPlaceName e lat lon w = (Normal v, w')
      /\ db w' = db w /\ files w' = files w
      /\ (display_name_of (geo e lat lon) = None -> v = JsStr unknown_location)
      /\ (forall x, display_name_of (geo e lat lon) = Some x -> v = x)
      /\ (forall s, display_name_of (geo e lat lon) = Some (JsStr s) -> is_string v = true))
  /\ (display_name_of (geo e lat lon) = None ->
      valid_body body = true ->
      (forall file,
          uuidv4 e <> "" -> fresh e w = true -> db_fault e 0 = false ->
          exists shop,
            fst (create_shop e body file w) = Normal (mkResponse 201 (JShop shop))
            /\ placeName (location shop) = Str unknown_location
            /\ shop ∈ db (snd (create_shop e body file w)))
      /\ (forall k file old,
          List.find (has_id k) (db w) = Some old -> id old <> "" ->
          db_fault e 0 = false -> db_fault e 1 = false ->
          exists shop,
            fst (update_shop e k body file w) = Normal (mkResponse 200 (JShop shop))
            /\ placeName (location shop) = Str unknown_location
            /\ shop ∈ db (snd (update_shop e k body file w)))).
Proof.
  intros lat lon. split.
  - exists (resolve (geo e lat lon)), (with_trace w (geo_events e lat lon)).
    rewrite getPlaceName_run. repeat split.
    + apply resolve_fallback.
    + unfold resolve. by intros x ->.
    + unfold resolve. by intros s ->.
  - intros Hnone Hbody. split.
    + intros file Hu Hfresh Hf.
      assert (validate (created e body file) = true) as Hv.
      { rewrite validate_created, Hbody. fold lat lon.
        rewrite (resolve_fallback _ Hnone). simpl.
        apply String.eqb_neq in Hu. by rewrite Hu. }
      exists (created e body file). rewrite create_shop_ok by done. simpl.
      repeat split.
      * unfold created. fold lat lon. by rewrite (resolve_fallback _ Hnone).
      * set_solver.
    + intros k file old Hfind Hid Hf0 Hf1.
      assert (validate (updated e body file old) = true) as Hv.
      { rewrite validate_updated, Hbody. fold lat lon.
        rewrite (resolve_fallback _ Hnone). simpl.
        apply String.eqb_neq in Hid. by rewrite Hid. }
      exists (updated e body file old). rewrite (update_shop_ok _ _ _ _ _ old) by done.
      simpl. repeat split.
      * unfold updated. fold lat lon. rewrite (resolve_fallback _ Hnone).
        by destruct file.
      * apply (elem_of_replace _ old); [ | apply updated_keys].
        by apply find_has_id in Hfind as [? _].
Qed.

Lemma getPlaceName_fallback_witness :
  (exists shop,
      fst (create_shop env_offline body_ann None empty_world)
      = Normal (mkResponse 201 (JShop shop))
      /\ placeName (location shop) = Str unknown_location
      /\ shop ∈ db (snd (create_shop env_offline body_ann None empty_world)))
  /\ (exists shop,
      fst (update_shop env_offline "abc" body_ann None world_ann)
      = Normal (mkResponse 200 (JShop shop))
      /\ placeName (location shop) = Str unknown_location
      /\ shop ∈ db (snd (update_shop env_offline "abc" body_ann None world_ann))).
Proof.
  destruct (getPlaceName_fallback env_offline body_ann empty_world) as [_ Hnew].
  destruct (getPlaceName_fallback env_offline body_ann world_ann) as [_ Hold].
  split.
  - destruct Hnew as [Hcreate _]; [reflexivity | reflexivity | ].
    apply Hcreate; [discriminate | reflexivity | reflexivity].
  - destruct Hold as [_ Hupdate]; [reflexivity | reflexivity | ].
    apply (Hupdate "abc" None shop_ann); [reflexivity | discriminate | reflexivity | reflexivity].
Defined.

(** With an object as [display_name] the document cannot be cast and the
    create fails. *)
Example create_with_object_display_name :
  fst (create_shop
         (mkEnv (fun _ _ => AxiosResolves (JsObj [("display_name", JsObj [])]))
                "7c1d" 5 noon (fun _ => false))
         body_ann None empty_world)
  = Normal (mkResponse 500 (JError "Failed to create shop")).
Proof. reflexivity. Qed.

(** ** C3: not-found symmetry *)

Lemma upload_single_run (file : option File) (w : World) :
  exists w',
    upload_single file w = (Normal tt, w')
    /\ db w' = db w
    /\ files w' = match file with
                  | Some f => {[public_path (upload_ref f)]} ∪ files w
                  | None => files w
                  end.
Proof. destruct file as [f | ]; by eexists. Qed.

(** C3: when no record carries the identifier, get, update and delete answer
    404 "Shop not found" (provided the lookup itself does not fail), and in
    every case leave the collection and the files as they were, performing no
    write and no file-system call; the PUT route as a whole, middleware
    included, changes no record and removes no file. *)
Theorem not_found_symmetry (e : Env) (k : string) (body : Body) (file : option File)
    (w : World) :
  (forall s, s ∈ db w -> id s <> k) ->
  (db_fault e 0 = false ->
   fst (get_shop e k w) = Normal (mkResponse 404 (JError "Shop not found"))
   /\ fst (update_shop e k body file w) = Normal (mkResponse 404 (JError "Shop not found"))
   /\ fst (delete_shop e k w) = Normal (mkResponse 404 (JError "Shop not found")))
  /\ (forall w',
       w' ∈ [snd (get_shop e k w); snd (update_shop e k body file w);
             snd (delete_shop e k w)] ->
       db w' = db w /\ files w' = files w
       /\ exists evs, trace w' = trace w ++ evs /\ forallb quiet evs = true)
  /\ (db (snd (put_route e k body file w)) = db w
      /\ files w ⊆ files (snd (put_route e k body file w))).
Proof.
  intros Hnone. apply find_none_iff in Hnone. split; [ | split].
  - intros Hf. rewrite get_shop_run, update_shop_run, delete_shop_run, Hf, Hnone.
    done.
  - intros w' Hw'. rewrite get_shop_run, update_shop_run, delete_shop_run, Hnone in Hw'.
    destruct (db_fault e 0); simpl in Hw'.
    + assert (w' = w) as -> by set_solver.
      repeat split. exists []. by rewrite app_nil_r.
    + assert (w' = with_trace w [EvFindOne k]) as -> by set_solver.
      repeat split. by exists [EvFindOne k].
  - unfold put_route, bind.
    destruct (upload_single_run file w) as (w1 & -> & Hdb & Hfiles).
    rewrite update_shop_run, Hdb, Hnone.
    destruct (db_fault e 0); simpl; rewrite Hdb, Hfiles;
      (split; [done | destruct file; set_solver]).
Qed.

Lemma not_found_symmetry_witness :
  fst (get_shop env_london "nope" world_ann) = Normal (mkResponse 404 (JError "Shop not found"))
  /\ fst (update_shop env_london "nope" body_ann (Some new_photo) world_ann)
     = Normal (mkResponse 404 (JError "Shop not found"))
  /\ fst (delete_shop env_london "nope" world_ann)
     = Normal (mkResponse 404 (JError "Shop not found")).
Proof.
  apply (not_found_symmetry env_london "nope" body_ann (Some new_photo) world_ann);
    [ | reflexivity].
  intros s Hs. apply list_elem_of_singleton in Hs as ->. discriminate.
Defined.

(** ** C5: a create request with a missing required text field *)

Lemma absent_not_required (v : JsVal) :
  absent_or_empty v = true -> required (castString v) = false.
Proof. destruct v; try discriminate; simpl; [done | by intros ->]. Qed.

Lemma missing_invalid (b : Body) : missing_text_field b = true -> valid_body b = false.
Proof.
  unfold missing_text_field, valid_body. intros H.
  repeat (apply orb_true_iff in H as [H | H]);
    apply absent_not_required in H; rewrite H; simpl;
    rewrite ?andb_false_r; reflexivity.
Qed.

(** Against C5 as stated: a create request without [ownerName] is answered
    500, not a client error, and the geocoder has been called by then. *)
Lemma create_without_owner_is_500 :
  missing_text_field body_no_owner = true
  /\ fst (create_shop env_london body_no_owner None empty_world)
     = Normal (mkResponse 500 (JError "Failed to create shop"))
  /\ trace (snd (create_shop env_london body_no_owner None empty_world))
     = [EvGeocode (JsStr "51.5074") (JsStr "-0.1278")].
Proof. repeat split. Qed.

(** C5 (amended): a create request that lacks a required text field,
    because [req.body] is undefined or because one of the five fields is
    absent or empty, is answered 500, not a client error, and nothing is
    written to the collection.  The handler answers "Failed to create shop"
    and makes no file-system call: with a body it has called the geocoder
    before schema validation rejects the document at [save], without a body
    the destructuring throws before the geocoder is asked.  For the request
    as served, middleware included, no record is written, no file is removed,
    and the geocoder is called exactly when multer accepted the upload and
    [req.body] is defined. *)
Theorem create_missing_field (e : Env) (req_body : option Body) (u : Upload)
    (w : World) :
  lacks_text_field req_body = true ->
  (forall file w0,
      let r := create_shop_handler e req_body file w0 in
      let evs := match req_body with
                 | Some body => geo_events e (body_latitude body) (body_longitude body)
                 | None => []
                 end in
      fst r = Normal (mkResponse 500 (JError "Failed to create shop"))
      /\ db (snd r) = db w0
      /\ files (snd r) = files w0
      /\ trace (snd r) = trace w0 ++ evs
      /\ existsb is_geocode_event evs = match req_body with Some _ => true | None => false end
      /\ forallb quiet evs = true)
  /\ (let r := serve e (PostShop req_body u) w in
      status (fst r) = 500
      /\ db (snd r) = db w
      /\ files w ⊆ files (snd r)
      /\ exists evs,
          trace (snd r) = trace w ++ evs
          /\ forallb (fun ev => negb (is_write_event ev)) evs = true
          /\ existsb is_geocode_event evs = parsed req_body u).
Proof.
  intros Hmiss.
  assert (forall file w0,
      let r := create_shop_handler e req_body file w0 in
      let evs := match req_body with
                 | Some body => geo_events e (body_latitude body) (body_longitude body)
                 | None => []
                 end in
      fst r = Normal (mkResponse 500 (JError "Failed to create shop"))
      /\ db (snd r) = db w0
      /\ files (snd r) = files w0
      /\ trace (snd r) = trace w0 ++ evs
      /\ existsb is_geocode_event evs = match req_body with Some _ => true | None => false end
      /\ forallb quiet evs = true) as Hhandler.
  { intros file w0. cbv zeta. rewrite create_shop_handler_run.
    destruct req_body as [body | ]; proj.
    - apply missing_invalid in Hmiss.
      rewrite create_shop_run. cbv zeta.
      rewrite validate_created, Hmiss, andb_false_r. unfold with_trace. proj.
      repeat split; unfold geo_events; simpl; by destruct (caught _).
    - repeat split. by rewrite app_nil_r. }
  split; [exact Hhandler | ].
  cbv zeta. unfold serve.
  destruct (route_post_cases e req_body u w)
    as [(m & -> & ->)
       | (file & w1 & evs & -> & -> & _ & Hdb & Hfiles & Htr & _ & Hwrites & Hgeo)].
  - simpl. split; [done | split; [done | split; [done | ]]].
    exists []. by rewrite app_nil_r.
  - destruct (Hhandler file w1) as (Hrun & Hdb' & Hfiles' & Htr' & Hgeo' & Hquiet).
    destruct (create_shop_handler e req_body file w1) as [c w2].
    simpl in Hrun, Hdb', Hfiles', Htr'. subst c. simpl.
    rewrite Hdb', Hfiles', Htr', Hdb, Hfiles, Htr.
    split; [done | split; [done | split; [destruct file; set_solver | ]]].
    eexists. split; [by rewrite <- app_assoc | ].
    rewrite forallb_app, existsb_app, Hwrites, Hgeo, Hgeo'. split.
    + cbn [andb]. rewrite forallb_forall in *. intros ev Hev.
      specialize (Hquiet ev Hev). unfold quiet in Hquiet.
      apply negb_true_iff, orb_false_iff in Hquiet as [_ ->]. done.
    + destruct file; by destruct req_body.
Qed.

Lemma create_missing_field_witness :
  fst (create_shop_handler env_offline (Some body_no_owner) (Some new_photo) world_ann)
  = Normal (mkResponse 500 (JError "Failed to create shop"))
  /\ db (snd (serve env_offline (PostShop None (Stored new_photo)) world_ann))
     = db world_ann.
Proof.
  split.
  - destruct (create_missing_field env_offline (Some body_no_owner) NoUpload world_ann)
      as [Hhandler _]; [reflexivity | ].
    apply (Hhandler (Some new_photo) world_ann).
  - destruct (create_missing_field env_offline None (Stored new_photo) world_ann)
      as [_ (_ & Hdb & _)]; [reflexivity | exact Hdb].
Defined.

(** ** C1: the order of file removal and persistence in an update *)

(** Against C1 as stated: updating Ann's shop with a new photo unlinks the
    old file before the record is written, also when the write succeeds; and
    when the write fails the collection keeps a record whose photo is no
    longer on disk. *)
Lemma update_unlinks_before_saving :
  consistent world_ann = true
  /\ trace (snd (update_shop env_london "abc" body_ann (Some new_photo) world_ann))
     = [EvFindOne "abc"; EvGeocode (JsStr "51.5074") (JsStr "-0.1278");
        EvExists "public/uploads/1700000000000.png";
        EvUnlink "public/uploads/1700000000000.png";
        EvUpdate (updated env_london body_ann (Some new_photo) shop_ann)]
  /\ persists_first
       (trace (snd (update_shop env_london "abc" body_ann (Some new_photo) world_ann)))
     = false
  /\ fst (update_shop env_save_fails "abc" body_ann (Some new_photo) world_ann)
     = Normal (mkResponse 500 (JError "Failed to update shop"))
  /\ db (snd (update_shop env_save_fails "abc" body_ann (Some new_photo) world_ann))
     = [shop_ann]
  /\ (public_path (photo shop_ann)
      ∉ files (snd (update_shop env_save_fails "abc" body_ann (Some new_photo) world_ann)))
  /\ consistent (snd (update_shop env_save_fails "abc" body_ann (Some new_photo) world_ann))
     = false.
Proof.
  repeat split; try (vm_compute; reflexivity).
  intros Hin. apply (bool_decide_eq_true_2 _) in Hin. vm_compute in Hin. discriminate.
Qed.

Lemma persists_first_geo (e : Env) (lat lon : JsVal) (rest : list Event) :
  persists_first (geo_events e lat lon ++ rest) = persists_first rest.
Proof. unfold geo_events. cbn [app persists_first]. by destruct (caught _). Qed.

(** C1 (amended): in an update of an existing shop that carries a staged
    photo, the handler removes the old file first (when the record names a
    photo and that file is on disk) and writes the record carrying the new
    reference afterwards.  When the write succeeds, the stored record names
    the staged file, which is still on disk provided its reference differs
    from the old one. *)
Theorem update_removes_then_persists (e : Env) (k : string) (body : Body) (f : File)
    (w : World) (old : Shop) :
  List.find (has_id k) (db w) = Some old ->
  db_fault e 0 = false ->
  let r := update_shop e k body (Some f) w in
  let shop := updated e body (Some f) old in
  let lookup := EvFindOne k :: geo_events e (body_latitude body) (body_longitude body) in
  (exists rest,
      trace (snd r) = trace w ++ lookup ++ removal_events (photo old) (files w) ++ rest
      /\ (rest = [] \/ rest = [EvUpdate shop]))
  /\ (photo old <> "" -> public_path (photo old) ∈ files w ->
      persists_first (drop (length (trace w)) (trace (snd r))) = false)
  /\ (photo old <> "" -> public_path (photo old) ∉ files (snd r))
  /\ (validate shop = true -> db_fault e 1 = false ->
      fst r = Normal (mkResponse 200 (JShop shop))
      /\ photo shop = upload_ref f
      /\ shop ∈ db (snd r)
      /\ (upload_ref f <> photo old -> public_path (upload_ref f) ∈ files w ->
          public_path (upload_ref f) ∈ files (snd r))).
Proof.
  intros Hfind Hf0 r shop lookup.
  assert (trace (snd r)
          = trace w ++ lookup ++ removal_events (photo old) (files w)
            ++ (if validate shop && negb (db_fault e 1) then [EvUpdate shop] else [])
          /\ files (snd r) = removed (photo old) (files w)) as [Htrace Hfiles].
  { subst r. rewrite update_shop_run, Hf0, Hfind. cbv zeta. fold shop.
    unfold update_events, update_files. fold lookup.
    subst lookup.
    destruct (validate shop && negb (db_fault e 1)); proj;
      (split; [ | done]); cbn [app]; by rewrite <- ?app_assoc, ?app_nil_r. }
  split; [ | split; [ | split]].
  - eexists. split; [exact Htrace | ]. destruct (_ && _); auto.
  - intros Hphoto Hdisk. rewrite Htrace, drop_app_length.
    subst lookup. cbn [app persists_first]. rewrite persists_first_geo.
    unfold removal_events. apply String.eqb_neq in Hphoto. rewrite Hphoto.
    by rewrite bool_decide_eq_true_2.
  - intros Hphoto. rewrite Hfiles, removed_spec. naive_solver.
  - intros Hv Hf1. subst r. rewrite (update_shop_ok _ _ _ _ _ old) by done.
    simpl. fold shop. repeat split.
    + apply (elem_of_replace _ old); [ | apply updated_keys].
      by apply find_has_id in Hfind as [? _].
    + intros Hne Hin. apply removed_spec. split; [done | ].
      right. intros Heq. by apply public_path_inj in Heq.
Qed.

Lemma update_removes_then_persists_witness :
  fst (update_shop env_london "abc" body_ann (Some new_photo) world_ann)
  = Normal (mkResponse 200
              (JShop (updated env_london body_ann (Some new_photo) shop_ann)))
  /\ persists_first
       (drop (length (trace world_ann))
             (trace (snd (update_shop env_london "abc" body_ann (Some new_photo) world_ann))))
     = false.
Proof.
  destruct (update_removes_then_persists env_london "abc" body_ann new_photo
              world_ann shop_ann) as (_ & Horder & _ & Hok); [reflexivity .. | ].
  split.
  - apply Hok; reflexivity.
  - apply Horder; [discriminate | ]. apply (bool_decide_eq_true_1 _). vm_compute. reflexivity.
Defined.

(** ** C4: identity stability *)

Lemma replace_oids (s : Shop) (l : list Shop) : _id <$> (replace s l) = _id <$> l.
Proof.
  induction l as [ | d l IH]; [done | ]. cbn [replace]. unfold has_oid at 1.
  destruct (Nat.eqb_spec (_id d) (_id s)) as [Heq | Hne]; rewrite !fmap_cons;
    congruence.
Qed.

Lemma replace_fmap {A} (g : Shop -> A) (s old : Shop) (l : list Shop) :
  NoDup (_id <$> l) -> old ∈ l -> _id s = _id old -> g s = g old ->
  g <$> replace s l = g <$> l.
Proof.
  intros Hnd Hin Hoid Hg. induction l as [ | d l IH]; [done | ].
  rewrite fmap_cons in Hnd. apply NoDup_cons in Hnd as [Hd Hnd].
  cbn [replace]. unfold has_oid at 1.
  destruct (Nat.eqb_spec (_id d) (_id s)) as [Heq | Hne]; rewrite !fmap_cons.
  - f_equal. apply elem_of_cons in Hin as [-> | Hin]; [done | ].
    exfalso. apply Hd. rewrite Heq, Hoid. by apply list_elem_of_fmap_2.
  - f_equal. apply IH; [done | ].
    apply elem_of_cons in Hin as [-> | Hin]; [congruence | done].
Qed.

Lemma remove_first_sublist (k : string) (l : list Shop) : remove_first k l `sublist_of` l.
Proof.
  induction l as [ | d l IH]; simpl; [done | ].
  destruct (has_id k d); [by apply sublist_cons | by apply sublist_skip].
Qed.

Lemma existsb_has_oid_false (o : nat) (l : list Shop) :
  existsb (has_oid o) l = false -> o ∉ (_id <$> l).
Proof.
  induction l as [ | d l IH]; simpl; [intros _; apply not_elem_of_nil | ].
  unfold has_oid at 1. destruct (Nat.eqb_spec (_id d) o) as [Heq | Hne]; [done | ].
  simpl. intros H Hin. apply elem_of_cons in Hin as [-> | Hin]; [done | by apply IH].
Qed.

Lemma fresh_spec (e : Env) (w : World) :
  fresh e w = true -> (uuidv4 e ∉ (id <$> db w)) /\ (objectId e ∉ (_id <$> db w)).
Proof.
  unfold fresh. intros H. apply andb_true_iff in H as [Hid Hoid].
  apply negb_true_iff in Hid, Hoid. split; [ | by apply existsb_has_oid_false].
  intros Hin. apply list_elem_of_fmap in Hin as (s & Hs & Hin).
  by apply (proj1 (existsb_has_id_false _ _) Hid s).
Qed.

Lemma create_well_keyed (e : Env) (body : Body) (file : option File) (w : World) :
  well_keyed (db w) -> well_keyed (db (snd (create_shop e body file w))).
Proof.
  intros [Hoid Hid]. rewrite create_shop_run. cbv zeta.
  destruct (validate _ && negb _ && fresh e w) eqn:Hok; proj; [ | done].
  apply andb_true_iff in Hok as [_ Hfresh]. apply fresh_spec in Hfresh as [Hu Ho].
  unfold well_keyed. rewrite !fmap_app. split; apply NoDup_app; simpl.
  - repeat split; [done | | apply NoDup_singleton].
    intros x Hx Hx'. apply list_elem_of_singleton in Hx'. by subst.
  - repeat split; [done | | apply NoDup_singleton].
    intros x Hx Hx'. apply list_elem_of_singleton in Hx'. by subst.
Qed.

Lemma update_keeps_keys (e : Env) (k : string) (body : Body) (file : option File)
    (w : World) :
  well_keyed (db w) ->
  _id <$> (db (snd (update_shop e k body file w))) = _id <$> (db w)
  /\ id <$> (db (snd (update_shop e k body file w))) = id <$> (db w).
Proof.
  intros [Hoid Hid]. rewrite update_shop_run.
  destruct (db_fault e 0); [done | ].
  destruct (List.find (has_id k) (db w)) as [old | ] eqn:Hfind; [ | done].
  cbv zeta. destruct (validate _ && negb _); proj; [ | done].
  split; [apply replace_oids | ].
  apply (replace_fmap id _ old); [done | | apply updated_keys ..].
  by apply find_has_id in Hfind as [? _].
Qed.

Lemma delete_well_keyed (e : Env) (k : string) (w : World) :
  well_keyed (db w) -> well_keyed (db (snd (delete_shop e k w))).
Proof.
  intros Hwk. rewrite delete_shop_run.
  destruct (db_fault e 0); [done | ].
  destruct (List.find (has_id k) (db w)); [ | done].
  cbv zeta. destruct (db_fault e 1); proj; [done | ].
  destruct Hwk as [Hoid Hid]. split.
  - eapply sublist_NoDup; [exact Hoid | ]. apply fmap_sublist, remove_first_sublist.
  - eapply sublist_NoDup; [exact Hid | ]. apply fmap_sublist, remove_first_sublist.
Qed.

Lemma get_shops_db (e : Env) (w : World) : db (snd (get_shops e w)) = db w.
Proof. unfold get_shops, find. run. by destruct (db_fault e 0). Qed.

Lemma get_shop_db (e : Env) (k : string) (w : World) : db (snd (get_shop e k w)) = db w.
Proof.
  rewrite get_shop_run. destruct (db_fault e 0); [done | ].
  by destruct (List.find (has_id k) (db w)).
Qed.

(** The unique keys are an invariant of serving requests. *)
Lemma serve_well_keyed (e : Env) (r : Request) (w : World) :
  well_keyed (db w) -> well_keyed (db (snd (serve e r w))).
Proof.
  intros Hwk. unfold serve.
  destruct (route e r w) as [c w'] eqn:Hroute.
  assert (well_keyed (db w')) as Hw'.
  { change w' with (snd (c, w')). rewrite <- Hroute.
    destruct r as [ | k | rb u | k rb u | k].
    - cbn [route]. by rewrite get_shops_db.
    - cbn [route]. by rewrite get_shop_db.
    - destruct (route_post_cases e rb u w)
        as [(m & _ & ->) | (file & w1 & evs & _ & -> & _ & Hdb & _)]; [done | ].
      rewrite <- Hdb in Hwk. rewrite create_shop_handler_run.
      destruct rb as [body | ]; [by apply create_well_keyed | done].
    - destruct (route_put_cases e k rb u w)
        as [(m & _ & ->) | (file & w1 & evs & _ & -> & _ & Hdb & _)]; [done | ].
      rewrite <- Hdb in Hwk. rewrite update_shop_handler_run.
      destruct rb as [body | ].
      + destruct (update_keeps_keys e k body file w1 Hwk) as [H1 H2].
        destruct Hwk. split; congruence.
      + destruct (db_fault e 0); [done | ].
        by destruct (List.find (has_id k) (db w1)).
    - cbn [route]. by apply delete_well_keyed. }
  by destruct c.
Qed.

Lemma serve_all_well_keyed (reqs : list (Env * Request)) (w : World) :
  well_keyed (db w) -> well_keyed (db (serve_all reqs w)).
Proof.
  revert w. induction reqs as [ | [e r] reqs IH]; intros w Hwk; simpl; [done | ].
  by apply IH, serve_well_keyed.
Qed.

Lemma created_id_minted (e : Env) (rb : option Body) (u : Upload) (w : World)
    (i : string) :
  created_id (PostShop rb u) (fst (serve e (PostShop rb u) w)) = Some i ->
  i = uuidv4 e.
Proof.
  unfold serve.
  destruct (route_post_cases e rb u w)
    as [(m & _ & ->) | (file & w1 & evs & _ & -> & _)]; [done | ].
  rewrite create_shop_handler_run. destruct rb as [body | ]; [ | done].
  rewrite create_shop_run. cbv zeta.
  destruct (_ && _); simpl; [ | done]. by intros [= <-].
Qed.

Lemma created_ids_sublist (reqs : list (Env * Request)) (w : World) :
  created_ids reqs w `sublist_of` minted reqs.
Proof.
  revert w. induction reqs as [ | [e r] reqs IH]; intros w; simpl; [done | ].
  destruct (serve e r w) as [res w'] eqn:Hserve.
  destruct (created_id r res) as [i | ] eqn:Hid.
  - destruct r as [ | k | rb u | k rb u | k]; try done.
    change res with (fst (res, w')) in Hid. rewrite <- Hserve in Hid.
    apply created_id_minted in Hid as ->. by apply sublist_skip.
  - destruct r; try apply IH. by apply sublist_cons.
Qed.

(** C4: a create that validates (with a working store and unused keys)
    answers 201; the record a create returns carries the identifier the
    server generated with [uuidv4], which is not empty and differs from the
    identifier of every record in the collection; over any sequence of
    requests in which the generator never repeats itself, the identifiers of
    all created records are pairwise distinct; and an update returns and
    stores the record under the identifier it was found by, leaving the
    identifiers of the whole collection as they were. *)
Theorem identity_stability :
  (forall e body file w,
      validate (created e body file) = true -> db_fault e 0 = false ->
      fresh e w = true ->
      fst (create_shop e body file w)
      = Normal (mkResponse 201 (JShop (created e body file))))
  /\ (forall e body file w shop,
      fst (create_shop e body file w) = Normal (mkResponse 201 (JShop shop)) ->
      id shop = uuidv4 e /\ id shop <> ""
      /\ (forall s, s ∈ db w -> id s <> id shop)
      /\ shop ∈ db (snd (create_shop e body file w)))
  /\ (forall reqs w, NoDup (minted reqs) -> NoDup (created_ids reqs w))
  /\ (forall e k body file w shop,
      well_keyed (db w) ->
      fst (update_shop e k body file w) = Normal (mkResponse 200 (JShop shop)) ->
      id shop = k
      /\ shop ∈ db (snd (update_shop e k body file w))
      /\ id <$> db (snd (update_shop e k body file w)) = id <$> db w).
Proof.
  split; [ | split; [ | split]].
  - intros e body file w Hv Hf Hfresh. by rewrite create_shop_ok.
  - intros e body file w shop H.
    apply create_shop_201 in H as (-> & Hv & _ & Hfresh & ->).
    rewrite validate_created in Hv.
    apply andb_true_iff in Hv as [Hv _]. apply andb_true_iff in Hv as [Hu _].
    apply negb_true_iff, String.eqb_neq in Hu.
    apply fresh_spec in Hfresh as [Hfresh _].
    repeat split; [done | | set_solver].
    intros s Hs Heq. apply Hfresh. apply list_elem_of_fmap. by exists s.
  - intros reqs w Hnd. eapply sublist_NoDup; [exact Hnd | apply created_ids_sublist].
  - intros e k body file w shop Hwk H.
    destruct (update_keeps_keys e k body file w Hwk) as [_ Hids].
    apply update_shop_200 in H as (old & Hfind & -> & _ & _ & _ & Hdb).
    apply find_has_id in Hfind as [Hin Hk].
    destruct (updated_keys e body file old) as [Hoid Hid].
    repeat split; [congruence | | done].
    rewrite Hdb. by apply (elem_of_replace _ old).
Qed.

Lemma identity_stability_witness :
  fst (create_shop env_london body_ann None world_ann)
  = Normal (mkResponse 201 (JShop (created env_london body_ann None)))
  /\ id (created env_london body_ann None) <> ""
  /\ NoDup (created_ids [(env_london, PostShop (Some body_ann) NoUpload);
                         (env_offline, DeleteShop "3f0c1a52-7d1e-4c55-9a43-0d1c6a0f2b11");
                         (env_offline, PostShop (Some body_ann) NoUpload)] empty_world)
  /\ id <$> db (snd (update_shop env_london "abc" body_ann (Some new_photo) world_ann))
     = id <$> db world_ann.
Proof.
  destruct identity_stability as (Hok & Hnew & Hseq & Hupd).
  assert (fst (create_shop env_london body_ann None world_ann)
          = Normal (mkResponse 201 (JShop (created env_london body_ann None)))) as Hrun.
  { apply Hok; reflexivity. }
  split; [exact Hrun | split; [ | split]].
  - apply (Hnew _ _ _ _ _ Hrun).
  - apply Hseq. simpl. apply NoDup_cons. split.
    + intros Hin. apply list_elem_of_singleton in Hin. discriminate.
    + apply NoDup_singleton.
  - eapply (Hupd env_london "abc" body_ann (Some new_photo) world_ann).
    + split; apply NoDup_singleton.
    + reflexivity.
Defined.

(** ** C6: the place name is recomputed from the request *)

Lemma created_placeName (e : Env) (body : Body) (file : option File) :
  placeName (location (created e body file))
  = castString (resolve (geo e (body_latitude body) (body_longitude body))).
Proof.
  unfold created, new_Shop. simpl.
  pose proof (resolve_truthy (geo e (body_latitude body) (body_longitude body))) as Ht.
  by destruct (resolve _).
Qed.

Lemma updated_placeName (e : Env) (body : Body) (file : option File) (old : Shop) :
  placeName (location (updated e body file old))
  = castString (resolve (geo e (body_latitude body) (body_longitude body))).
Proof. unfold updated. by destruct file. Qed.



(** ** C7: create, then get *)

Lemma find_snoc_fresh (k : string) (l : list Shop) (s : Shop) :
  existsb (has_id k) l = false -> id s = k ->
  List.find (has_id k) (l ++ [s]) = Some s.
Proof.
  intros Hnone Hk. induction l as [ | d l IH]; simpl in *.
  - unfold has_id. by rewrite Hk, String.eqb_refl.
  - apply orb_false_iff in Hnone as [-> Hnone]. by apply IH.
Qed.

Lemma castable_truthy (v : JsVal) :
  truthy v = true -> castable (castString v) = true -> exists s, castString v = Str s.
Proof.
  destruct v as [ | | b | n | s | props | elems]; simpl; try done; try by eexists.
  intros _. destruct (assoc "_id" props) as [[ | | | | s | | ] | ]; try done.
  destruct (String.eqb s ""); [done | by eexists].
Qed.

(** C7: a create whose document validates, with a working store and unused
    keys, answers 201 with a record, and a get with the identifier of that
    record answers 200 with the very same record; its server-assigned fields
    are present: the generated identifier, the timestamp, a place name and
    the photo reference (empty when no file was uploaded), next to the
    fields of the request. *)
Theorem create_then_get (e e' : Env) (body : Body) (file : option File) (w : World) :
  validate (created e body file) = true ->
  db_fault e 0 = false ->
  fresh e w = true ->
  db_fault e' 0 = false ->
  exists shop w',
    create_shop e body file w = (Normal (mkResponse 201 (JShop shop)), w')
    /\ fst (get_shop e' (id shop) w') = Normal (mkResponse 200 (JShop shop))
    /\ id shop = uuidv4 e /\ id shop <> ""
    /\ timestamp shop = format (now e) timestamp_pattern /\ timestamp shop <> ""
    /\ (exists s, placeName (location shop) = Str s)
    /\ photo shop = match file with Some f => upload_ref f | None => "" end
    /\ ownerName shop = castString (body_ownerName body)
    /\ contactNumber shop = castString (body_contactNumber body)
    /\ shopNumber shop = castString (body_shopNumber body)
    /\ address shop = castString (body_address body)
    /\ description shop = castString (body_description body)
    /\ latitude (location shop) = castString (body_latitude body)
    /\ longitude (location shop) = castString (body_longitude body).
Proof.
  intros Hv Hf Hfresh Hf'.
  eexists _, _. split; [by apply create_shop_ok | ].
  rewrite get_shop_run, Hf'. proj.
  assert (existsb (has_id (uuidv4 e)) (db w) = false) as Hnone.
  { unfold fresh in Hfresh. apply andb_true_iff in Hfresh as [Hid _].
    by apply negb_true_iff in Hid. }
  change (id (created e body file)) with (uuidv4 e).
  rewrite (find_snoc_fresh _ _ (created e body file) Hnone) by done.
  pose proof Hv as Hv'. rewrite validate_created in Hv'.
  apply andb_true_iff in Hv' as [Hv' Hcast]. apply andb_true_iff in Hv' as [Hu _].
  apply negb_true_iff, String.eqb_neq in Hu.
  repeat split; try done.
  - apply timestamp_nonempty.
  - rewrite created_placeName. apply castable_truthy; [apply resolve_truthy | done].
Qed.

Lemma create_then_get_witness :
  exists shop w',
    create_shop env_london body_ann (Some new_photo) world_ann
    = (Normal (mkResponse 201 (JShop shop)), w')
    /\ fst (get_shop env_offline (id shop) w') = Normal (mkResponse 200 (JShop shop)).
Proof.
  destruct (create_then_get env_london env_offline body_ann (Some new_photo) world_ann)
    as (shop & w' & Hcreate & Hget & _); [reflexivity .. | ].
  by exists shop, w'.
Defined.

(** ** C8: removal of an asset is idempotent *)

Lemma removed_absent (photo : string) (fs : gset string) :
  public_path photo ∉ fs -> removed photo fs = fs.
Proof.
  intros Hout. unfold removed. rewrite bool_decide_eq_false_2 by done.
  by rewrite andb_false_r.
Qed.

Lemma removed_gone (photo : string) (fs : gset string) :
  photo <> "" -> public_path photo ∉ removed photo fs.
Proof. intros Hne. rewrite removed_spec. naive_solver. Qed.

Lemma removed_idem (photo : string) (fs : gset string) :
  removed photo (removed photo fs) = removed photo fs.
Proof.
  destruct (String.eqb_spec photo "") as [-> | Hne]; [done | ].
  apply removed_absent. by apply removed_gone.
Qed.

(** [fs.unlinkSync] alone throws on a file that is not there. *)
Example unlinkSync_missing :
  fst (unlinkSync "public/uploads/gone.png" empty_world)
  = Throw (ENOENT "public/uploads/gone.png").
Proof. reflexivity. Qed.

(** C8: the removal of an asset, as both handlers perform it, never throws;
    it leaves the collection alone, deletes the file of a non-empty reference
    when it is on disk, touches no other file, changes nothing when the file
    is absent, and doing it a second time succeeds again and changes
    nothing more. *)
Theorem remove_photo_idempotent (photo : string) (w : World) :
  exists w',
    remove_photo photo w = (Normal tt, w')
    /\ db w' = db w
    /\ (photo <> "" -> public_path photo ∉ files w')
    /\ (forall p, p <> public_path photo -> p ∈ files w' <-> p ∈ files w)
    /\ (public_path photo ∉ files w -> files w' = files w)
    /\ exists w'',
        remove_photo photo w' = (Normal tt, w'')
        /\ db w'' = db w' /\ files w'' = files w'.
Proof.
  eexists. split; [apply remove_photo_run | ]. proj. repeat split.
  - apply removed_gone.
  - rewrite removed_spec. naive_solver.
  - rewrite removed_spec. naive_solver.
  - apply removed_absent.
  - eexists. split; [apply remove_photo_run | ]. proj.
    split; [done | apply removed_idem].
Qed.

Lemma remove_photo_idempotent_witness :
  exists w',
    remove_photo (upload_ref old_photo) world_ann = (Normal tt, w')
    /\ (public_path (upload_ref old_photo) ∉ files w')
    /\ exists w'', remove_photo (upload_ref old_photo) w' = (Normal tt, w'')
                   /\ files w'' = files w'.
Proof.
  destruct (remove_photo_idempotent (upload_ref old_photo) world_ann)
    as (w' & Hrun & _ & Hgone & _ & _ & w'' & Hagain & _ & Hsame).
  exists w'. split; [exact Hrun | split].
  - apply Hgone. discriminate.
  - by exists w''.
Defined.

(** ** C10: an update without an uploaded file *)

Lemma update_events_no_fs (e : Env) (k : string) (body : Body) (old : Shop)
    (fs : gset string) :
  forallb (fun ev => negb (is_fs_event ev)) (update_events e k body None old fs) = true.
Proof.
  unfold update_events, geo_events. rewrite app_nil_r. simpl. by destruct (caught _).
Qed.

(** C10: an update of an existing shop that carries no file leaves the files
    on disk as they were and makes no file-system call (the multer
    middleware does nothing either); when the new values validate and the
    store accepts the write, it answers 200 with the stored record, whose
    photo is the one the record had and whose other fields are those of the
    request, the place name and the timestamp being recomputed; with unique
    storage keys, the photo of every record of the collection is unchanged,
    whether the write succeeds or not. *)
Theorem update_without_file (e : Env) (k : string) (body : Body) (w : World)
    (old : Shop) :
  List.find (has_id k) (db w) = Some old ->
  db_fault e 0 = false ->
  let r := update_shop e k body None w in
  put_route e k body None w = r
  /\ files (snd r) = files w
  /\ (exists evs, trace (snd r) = trace w ++ evs
                  /\ forallb (fun ev => negb (is_fs_event ev)) evs = true)
  /\ (well_keyed (db w) -> photo <$> db (snd r) = photo <$> db w)
  /\ (validate (updated e body None old) = true -> db_fault e 1 = false ->
      exists shop,
        fst r = Normal (mkResponse 200 (JShop shop))
        /\ shop ∈ db (snd r)
        /\ photo shop = photo old
        /\ id shop = id old
        /\ ownerName shop = castString (body_ownerName body)
        /\ contactNumber shop = castString (body_contactNumber body)
        /\ shopNumber shop = castString (body_shopNumber body)
        /\ address shop = castString (body_address body)
        /\ description shop = castString (body_description body)
        /\ latitude (location shop) = castString (body_latitude body)
        /\ longitude (location shop) = castString (body_longitude body)
        /\ placeName (location shop)
           = castString (resolve (geo e (body_latitude body) (body_longitude body)))
        /\ timestamp shop = format (now e) timestamp_pattern).
Proof.
  intros Hfind Hf0 r. subst r.
  split; [done | ].
  pose proof (find_has_id _ _ _ Hfind) as [Hin Hk].
  rewrite update_shop_run, Hf0, Hfind. cbv zeta.
  change (update_files None old (files w)) with (files w).
  pose proof (update_events_no_fs e k body old (files w)) as Hquiet.
  destruct (validate (updated e body None old)) eqn:Hv;
    [destruct (db_fault e 1) eqn:Hf1 | ]; proj; cbn [andb negb].
  - repeat split; try done. by eexists.
  - repeat split.
    + eexists. split; [reflexivity | ]. by rewrite forallb_app, Hquiet.
    + intros [Hoid _]. by apply (replace_fmap photo _ old).
    + intros _ _. exists (updated e body None old). repeat split.
      by apply (elem_of_replace _ old).
  - repeat split; try done. by eexists.
Qed.

Lemma update_without_file_witness :
  files (snd (update_shop env_london "abc" body_ann None world_ann)) = files world_ann
  /\ exists shop,
      fst (update_shop env_london "abc" body_ann None world_ann)
      = Normal (mkResponse 200 (JShop shop))
      /\ photo shop = photo shop_ann.
Proof.
  destruct (update_without_file env_london "abc" body_ann world_ann shop_ann)
    as (_ & Hfiles & _ & _ & Hok); [reflexivity .. | ].
  split; [exact Hfiles | ].
  destruct Hok as (shop & Hrun & _ & Hphoto & _); [reflexivity .. | ].
  by exists shop.
Defined.

(** ** C9: the timestamp *)






Example timestamp_noon : format noon timestamp_pattern = "2024-01-05 09:03:07".
Proof. reflexivity. Qed.



(** * Further properties of the handlers *)

(** ** Reading the collection *)

Lemma get_shops_run (e : Env) (w : World) :
  get_shops e w
  = if db_fault e 0
    then (Normal (mkResponse 500 (JError "Failed to fetch shops")), w)
    else (Normal (mkResponse 200 (JShops (db w))), with_trace w [EvFind]).
Proof. unfold get_shops, find. run. by destruct (db_fault e 0). Qed.

Lemma find_elem (s : Shop) (l : list Shop) :
  s ∈ l -> exists s', List.find (has_id (id s)) l = Some s'.
Proof.
  induction l as [ | d l IH]; intros Hin; [by apply elem_of_nil in Hin | ].
  simpl. destruct (has_id (id s) d) eqn:Hd; [by eexists | ].
  apply IH. apply elem_of_cons in Hin as [-> | Hin]; [ | done].
  unfold has_id in Hd. by rewrite String.eqb_refl in Hd.
Qed.

Lemma unique_by_id (l : list Shop) (a b : Shop) :
  NoDup (id <$> l) -> a ∈ l -> b ∈ l -> id a = id b -> a = b.
Proof.
  induction l as [ | d l IH]; intros Hnd Ha Hb Heq; [by apply elem_of_nil in Ha | ].
  rewrite fmap_cons in Hnd. apply NoDup_cons in Hnd as [Hd Hnd].
  apply elem_of_cons in Ha as [-> | Ha]; apply elem_of_cons in Hb as [-> | Hb].
  - done.
  - exfalso. apply Hd. rewrite Heq. by apply list_elem_of_fmap_2.
  - exfalso. apply Hd. rewrite <- Heq. by apply list_elem_of_fmap_2.
  - by apply IH.
Qed.

(** X2: the two read routes never change the collection or the files.  The
    list route answers 200 with the whole collection, in its stored order,
    or 500 "Failed to fetch shops" when the store fails.  Looking up the
    identifier of a stored record, with a working store, answers 200 with a
    stored record carrying that identifier: the record itself when the
    identifiers of the collection are pairwise distinct. *)
Theorem reads_do_not_mutate (e : Env) (k : string) (w : World) :
  fst (get_shops e w)
  = Normal (if db_fault e 0 then mkResponse 500 (JError "Failed to fetch shops")
            else mkResponse 200 (JShops (db w)))
  /\ db (snd (get_shops e w)) = db w /\ files (snd (get_shops e w)) = files w
  /\ db (snd (get_shop e k w)) = db w /\ files (snd (get_shop e k w)) = files w
  /\ (forall s, s ∈ db w -> db_fault e 0 = false ->
      exists s', fst (get_shop e (id s) w) = Normal (mkResponse 200 (JShop s'))
                 /\ id s' = id s /\ s' ∈ db w
                 /\ (NoDup (id <$> db w) -> s' = s)).
Proof.
  rewrite get_shops_run, get_shop_run.
  repeat split; try (by destruct (db_fault e 0); [ | try destruct (List.find _ _)]).
  intros s Hin Hf. rewrite get_shop_run, Hf.
  destruct (find_elem s (db w) Hin) as [s' Hfind]. rewrite Hfind.
  apply find_has_id in Hfind as [Hin' Hid].
  exists s'. repeat split; try done.
  intros Hnd. by apply (unique_by_id (db w)).
Qed.

Lemma reads_do_not_mutate_witness :
  exists s', fst (get_shop env_london "bob" world_two) = Normal (mkResponse 200 (JShop s'))
             /\ s' = shop_bob.
Proof.
  destruct (reads_do_not_mutate env_london "bob" world_two) as (_ & _ & _ & _ & _ & H).
  destruct (H shop_bob) as (s' & Hrun & _ & _ & Huniq).
  - apply list_elem_of_In. right. left. reflexivity.
  - reflexivity.
  - exists s'. split; [exact Hrun | ]. apply Huniq.
    apply NoDup_cons. split; [ | apply NoDup_singleton].
    intros Hin. apply list_elem_of_singleton in Hin. discriminate.
Defined.

(** ** A duplicate key is rejected *)

(** X3: when a stored record already carries the identifier or the storage
    key generated for a new shop, the unique index rejects the insert: the
    create route answers 500 "Failed to create shop" and the collection and
    the files are left as they were; the stored record is not overwritten. *)
Theorem duplicate_key_rejected (e : Env) (body : Body) (file : option File)
    (w : World) (s : Shop) :
  s ∈ db w ->
  id s = uuidv4 e \/ _id s = objectId e ->
  fst (create_shop e body file w)
  = Normal (mkResponse 500 (JError "Failed to create shop"))
  /\ db (snd (create_shop e body file w)) = db w
  /\ files (snd (create_shop e body file w)) = files w.
Proof.
  intros Hin Hkey.
  assert (fresh e w = false) as Hfresh.
  { unfold fresh. apply andb_false_iff. apply list_elem_of_In in Hin.
    destruct Hkey as [Hid | Hoid]; [left | right]; apply negb_false_iff, existsb_exists;
      exists s; (split; [done | ]).
    - unfold has_id. by apply String.eqb_eq.
    - unfold has_oid. by apply Nat.eqb_eq. }
  rewrite create_shop_run. cbv zeta. by rewrite Hfresh, andb_false_r.
Qed.

Lemma duplicate_key_rejected_witness :
  fst (create_shop env_collides body_ann None world_ann)
  = Normal (mkResponse 500 (JError "Failed to create shop"))
  /\ db (snd (create_shop env_collides body_ann None world_ann)) = [shop_ann].
Proof.
  destruct (duplicate_key_rejected env_collides body_ann None world_ann shop_ann)
    as (Hrun & Hdb & _).
  - apply list_elem_of_In. left. reflexivity.
  - left. reflexivity.
  - split; [exact Hrun | exact Hdb].
Defined.

(** ** Deleting a shop *)

Lemma remove_first_length (k : string) (l : list Shop) (old : Shop) :
  List.find (has_id k) l = Some old -> S (length (remove_first k l)) = length l.
Proof.
  induction l as [ | d l IH]; simpl; [done | ].
  destruct (has_id k d); [done | ]. intros H. simpl. f_equal. by apply IH.
Qed.

Lemma remove_first_gone (k : string) (l : list Shop) :
  NoDup (id <$> l) -> List.find (has_id k) (remove_first k l) = None.
Proof.
  induction l as [ | d l IH]; [done | ].
  rewrite fmap_cons. intros Hnd. apply NoDup_cons in Hnd as [Hd Hnd]. simpl.
  destruct (has_id k d) eqn:Hk.
  - apply find_none_iff. intros s Hs Heq. apply Hd.
    unfold has_id in Hk. apply String.eqb_eq in Hk. rewrite Hk, <- Heq.
    by apply list_elem_of_fmap_2.
  - simpl. rewrite Hk. by apply IH.
Qed.

Lemma remove_first_others (k : string) (l : list Shop) (s : Shop) :
  id s <> k -> s ∈ remove_first k l <-> s ∈ l.
Proof.
  intros Hne. induction l as [ | d l IH]; [done | ]. simpl.
  destruct (has_id k d) eqn:Hk.
  - rewrite elem_of_cons. split; [by right | ]. intros [-> | H]; [ | done].
    unfold has_id in Hk. by apply String.eqb_eq in Hk.
  - rewrite !elem_of_cons, IH. done.
Qed.

(** X4: deleting a stored shop, with a working store, answers 200 "Shop
    deleted"; exactly one record leaves the collection and every record with
    another identifier stays; the photo of the deleted record, when it names
    one, is no longer on disk and no other file is touched.  When the
    identifiers of the collection are pairwise distinct, a later look-up of
    the identifier answers 404. *)
Theorem delete_existing (e e' : Env) (k : string) (w : World) (old : Shop) :
  List.find (has_id k) (db w) = Some old ->
  db_fault e 0 = false -> db_fault e 1 = false ->
  let w' := snd (delete_shop e k w) in
  fst (delete_shop e k w) = Normal (mkResponse 200 (JMessage "Shop deleted"))
  /\ S (length (db w')) = length (db w)
  /\ (forall s, id s <> k -> s ∈ db w' <-> s ∈ db w)
  /\ (photo old <> "" -> public_path (photo old) ∉ files w')
  /\ (forall p, p <> public_path (photo old) -> p ∈ files w' <-> p ∈ files w)
  /\ (NoDup (id <$> db w) -> db_fault e' 0 = false ->
      fst (get_shop e' k w') = Normal (mkResponse 404 (JError "Shop not found"))).
Proof.
  intros Hfind Hf0 Hf1 w'. subst w'.
  rewrite delete_shop_run, Hf0, Hfind. cbv zeta. rewrite Hf1. proj.
  repeat split.
  - by apply (remove_first_length _ _ old).
  - by apply remove_first_others.
  - by apply remove_first_others.
  - by apply removed_gone.
  - rewrite removed_spec. naive_solver.
  - rewrite removed_spec. naive_solver.
  - intros Hnd Hf'. rewrite get_shop_run, Hf'. proj.
    by rewrite remove_first_gone.
Qed.

Lemma delete_existing_witness :
  fst (delete_shop env_london "abc" world_two)
  = Normal (mkResponse 200 (JMessage "Shop deleted"))
  /\ fst (get_shop env_offline "abc" (snd (delete_shop env_london "abc" world_two)))
     = Normal (mkResponse 404 (JError "Shop not found"))
  /\ (public_path (photo shop_ann) ∉ files (snd (delete_shop env_london "abc" world_two))).
Proof.
  destruct (delete_existing env_london env_offline "abc" world_two shop_ann)
    as (Hrun & _ & _ & Hgone & _ & Hget); [reflexivity .. | ].
  split; [exact Hrun | split].
  - apply Hget; [ | reflexivity].
    apply NoDup_cons. split; [ | apply NoDup_singleton].
    intros Hin. apply list_elem_of_singleton in Hin. discriminate.
  - apply Hgone. discriminate.
Defined.

(** X5: the delete handler removes the photo before it deletes the record.
    When the store fails at [deleteOne], the answer is 500 "Failed to delete
    shop", the collection still holds the record, and the photo the record
    names is gone from the disk. *)
Theorem delete_store_failure (e : Env) (k : string) (w : World) (old : Shop) :
  List.find (has_id k) (db w) = Some old ->
  db_fault e 0 = false -> db_fault e 1 = true ->
  photo old <> "" ->
  let w' := snd (delete_shop e k w) in
  fst (delete_shop e k w) = Normal (mkResponse 500 (JError "Failed to delete shop"))
  /\ db w' = db w
  /\ old ∈ db w'
  /\ (public_path (photo old) ∉ files w')
  /\ consistent w' = false.
Proof.
  intros Hfind Hf0 Hf1 Hphoto w'. subst w'.
  rewrite delete_shop_run, Hf0, Hfind. cbv zeta. rewrite Hf1. proj.
  pose proof (find_has_id _ _ _ Hfind) as [Hin _].
  pose proof (removed_gone (photo old) (files w) Hphoto) as Hgone.
  repeat split; try done.
  unfold consistent. proj. apply not_true_iff_false. intros Hall.
  rewrite forallb_forall in Hall. apply list_elem_of_In in Hin.
  specialize (Hall old Hin). unfold photo_on_disk in Hall.
  apply orb_true_iff in Hall as [Hempty | Hdisk].
  - by apply String.eqb_eq in Hempty.
  - by apply bool_decide_eq_true_1 in Hdisk.
Qed.

Lemma delete_store_failure_witness :
  fst (delete_shop env_save_fails "abc" world_ann)
  = Normal (mkResponse 500 (JError "Failed to delete shop"))
  /\ db (snd (delete_shop env_save_fails "abc" world_ann)) = [shop_ann]
  /\ consistent (snd (delete_shop env_save_fails "abc" world_ann)) = false.
Proof.
  destruct (delete_store_failure env_save_fails "abc" world_ann shop_ann)
    as (Hrun & Hdb & _ & _ & Hbad); [reflexivity .. | discriminate | ].
  split; [exact Hrun | split; [exact Hdb | exact Hbad]].
Defined.

(** ** Updating a shop *)

Lemma find_replace (k : string) (l : list Shop) (s old : Shop) :
  NoDup (_id <$> l) ->
  List.find (has_id k) l = Some old -> _id s = _id old -> id s = k ->
  List.find (has_id k) (replace s l) = Some s.
Proof.
  intros Hnd Hfind Hoid Hid. induction l as [ | d l IH]; [done | ].
  rewrite fmap_cons in Hnd. apply NoDup_cons in Hnd as [Hd Hnd].
  assert (has_id k s = true) as Hs by (unfold has_id; by apply String.eqb_eq).
  simpl in Hfind. cbn [replace]. unfold has_oid at 1.
  destruct (Nat.eqb_spec (_id d) (_id s)) as [Heq | Hne]; simpl.
  - by rewrite Hs.
  - destruct (has_id k d) eqn:Hk; [congruence | ]. by apply IH.
Qed.

Lemma replace_others (l : list Shop) (s old x : Shop) :
  NoDup (_id <$> l) -> old ∈ l -> _id s = _id old ->
  id x <> id s -> id old = id s ->
  x ∈ replace s l <-> x ∈ l.
Proof.
  intros Hnd Hin Hoid Hx Hold. induction l as [ | d l IH]; [done | ].
  rewrite fmap_cons in Hnd. apply NoDup_cons in Hnd as [Hd Hnd].
  cbn [replace]. unfold has_oid at 1.
  destruct (Nat.eqb_spec (_id d) (_id s)) as [Heq | Hne].
  - assert (d = old) as ->.
    { apply elem_of_cons in Hin as [-> | Hin]; [done | ].
      exfalso. apply Hd. rewrite Heq, Hoid. by apply list_elem_of_fmap_2. }
    rewrite !elem_of_cons. split; intros [-> | H]; try congruence; by right.
  - rewrite !elem_of_cons, IH; [done | done | ].
    apply elem_of_cons in Hin as [-> | Hin]; [congruence | done].
Qed.

Lemma replace_length (s : Shop) (l : list Shop) : length (replace s l) = length l.
Proof.
  induction l as [ | d l IH]; [done | ]. cbn [replace].
  destruct (has_oid (_id s) d); simpl; congruence.
Qed.

(** X6: after a successful update of a collection with unique keys, looking
    the identifier up, with a working store, answers 200 with exactly the
    record the update returned. *)
Theorem update_then_get (e e' : Env) (k : string) (body : Body) (file : option File)
    (w : World) (shop : Shop) :
  well_keyed (db w) ->
  fst (update_shop e k body file w) = Normal (mkResponse 200 (JShop shop)) ->
  db_fault e' 0 = false ->
  fst (get_shop e' k (snd (update_shop e k body file w)))
  = Normal (mkResponse 200 (JShop shop)).
Proof.
  intros [Hoid _] Hrun Hf'.
  apply update_shop_200 in Hrun as (old & Hfind & -> & _ & _ & _ & Hdb).
  rewrite get_shop_run, Hf', Hdb.
  destruct (updated_keys e body file old) as [Hk1 Hk2].
  rewrite (find_replace k _ _ old); try done.
  rewrite Hk2. by apply find_has_id in Hfind as [_ ?].
Qed.

Lemma update_then_get_witness :
  fst (get_shop env_offline "bob"
         (snd (update_shop env_london "bob" body_ann (Some new_photo) world_two)))
  = Normal (mkResponse 200
              (JShop (updated env_london body_ann (Some new_photo) shop_bob))).
Proof.
  apply (update_then_get env_london env_offline "bob" body_ann (Some new_photo) world_two).
  - split; (apply NoDup_cons; split; [ | apply NoDup_singleton]);
      intros Hin; apply list_elem_of_singleton in Hin; discriminate.
  - reflexivity.
  - reflexivity.
Defined.

(** X7: an update changes one record only: in a collection with unique keys
    the number of records stays the same and every record with another
    identifier is in the collection afterwards exactly when it was before,
    whatever the outcome of the update. *)
Theorem update_touches_one_record (e : Env) (k : string) (body : Body)
    (file : option File) (w : World) (s : Shop) :
  well_keyed (db w) ->
  id s <> k ->
  length (db (snd (update_shop e k body file w))) = length (db w)
  /\ (s ∈ db (snd (update_shop e k body file w)) <-> s ∈ db w).
Proof.
  intros [Hoid _] Hne. rewrite update_shop_run.
  destruct (db_fault e 0); [done | ].
  destruct (List.find (has_id k) (db w)) as [old | ] eqn:Hfind; [ | done].
  cbv zeta. destruct (validate _ && negb _); proj; [ | done].
  apply find_has_id in Hfind as [Hin Hk].
  destruct (updated_keys e body file old) as [Hk1 Hk2].
  split; [apply replace_length | ].
  apply (replace_others _ _ old); try done; congruence.
Qed.

Lemma update_touches_one_record_witness :
  shop_ann ∈ db (snd (update_shop env_london "bob" body_ann None world_two)).
Proof.
  apply (update_touches_one_record env_london "bob" body_ann None world_two shop_ann).
  - split; (apply NoDup_cons; split; [ | apply NoDup_singleton]);
      intros Hin; apply list_elem_of_singleton in Hin; discriminate.
  - discriminate.
  - apply list_elem_of_In. left. reflexivity.
Defined.

(** ** Creating a shop with an upload *)

Lemma photo_on_disk_mono (fs fs' : gset string) (s : Shop) :
  fs ⊆ fs' -> photo_on_disk fs s = true -> photo_on_disk fs' s = true.
Proof.
  unfold photo_on_disk. intros Hsub H.
  apply orb_true_iff in H as [H | H]; apply orb_true_iff; [by left | right].
  apply bool_decide_eq_true_1 in H. apply bool_decide_eq_true_2. set_solver.
Qed.

Lemma post_route_run (e : Env) (body : Body) (file : option File) (w : World) :
  exists w1,
    post_route e body file w = create_shop e body file w1
    /\ db w1 = db w
    /\ files w1 = match file with
                  | Some f => {[public_path (upload_ref f)]} ∪ files w
                  | None => files w
                  end.
Proof.
  unfold post_route, bind.
  destruct (upload_single_run file w) as (w1 & -> & Hdb & Hfiles). by exists w1.
Qed.

(** X8: the create route never introduces a dangling reference.  Started in
    a store where every photo named by a record is on disk, it ends in such a
    store, whatever its answer, and removes no file; the record of a 201
    answer names the upload of the request, which is on disk, or no photo
    when the request carried no file. *)
Theorem post_route_keeps_assets (e : Env) (body : Body) (file : option File) (w : World) :
  consistent w = true ->
  let r := post_route e body file w in
  consistent (snd r) = true
  /\ files w ⊆ files (snd r)
  /\ (forall shop,
      fst r = Normal (mkResponse 201 (JShop shop)) ->
      photo shop = match file with Some f => upload_ref f | None => "" end
      /\ photo_on_disk (files (snd r)) shop = true).
Proof.
  intros Hcons r. subst r.
  destruct (post_route_run e body file w) as (w1 & -> & Hdb & Hfiles).
  assert (files w ⊆ files w1) as Hsub by (rewrite Hfiles; destruct file; set_solver).
  assert (forallb (photo_on_disk (files w1)) (db w) = true) as Hall.
  { unfold consistent in Hcons. rewrite forallb_forall in *.
    intros s Hs. by apply (photo_on_disk_mono (files w)), Hcons. }
  assert (photo_on_disk (files w1) (created e body file) = true) as Hnew.
  { unfold photo_on_disk, created, new_Shop. cbn [photo].
    destruct file as [f | ]; [ | done].
    apply orb_true_iff. right. apply bool_decide_eq_true_2. rewrite Hfiles. set_solver. }
  rewrite create_shop_run. cbv zeta.
  destruct (validate _ && negb _ && fresh e w1); proj.
  - split; [ | split; [done | ]].
    + unfold consistent. proj. rewrite Hdb, forallb_app, Hall. simpl. by rewrite Hnew.
    + intros shop [= <-]. split; [ | exact Hnew].
      unfold created, new_Shop. by destruct file.
  - split; [ | split; [done | ]].
    + unfold consistent, with_trace. proj. by rewrite Hdb.
    + intros shop [=].
Qed.

Lemma post_route_keeps_assets_witness :
  consistent (snd (post_route env_london body_ann (Some new_photo) world_two)) = true.
Proof.
  apply (post_route_keeps_assets env_london body_ann (Some new_photo) world_two).
  vm_compute. reflexivity.
Defined.

(** X9: a failed create is not rolled back.  When the create route is
    given an upload and answers 500, the collection is as it was and the
    uploaded file stays on disk. *)
Theorem failed_create_keeps_upload (e : Env) (body : Body) (f : File) (w : World)
    (res : Response) :
  fst (post_route e body (Some f) w) = Normal res ->
  status res = 500 ->
  db (snd (post_route e body (Some f) w)) = db w
  /\ public_path (upload_ref f) ∈ files (snd (post_route e body (Some f) w)).
Proof.
  destruct (post_route_run e body (Some f) w) as (w1 & -> & Hdb & Hfiles).
  rewrite create_shop_run. cbv zeta.
  destruct (validate _ && negb _ && fresh e w1); proj.
  - intros [= <-]. discriminate.
  - intros _ _. unfold with_trace. proj. split; [done | ]. rewrite Hfiles. set_solver.
Qed.

Lemma failed_create_keeps_upload_witness :
  db (snd (post_route env_london body_no_owner (Some new_photo) empty_world)) = []
  /\ public_path (upload_ref new_photo)
     ∈ files (snd (post_route env_london body_no_owner (Some new_photo) empty_world)).
Proof.
  apply (failed_create_keeps_upload env_london body_no_owner new_photo empty_world
           (mkResponse 500 (JError "Failed to create shop"))); reflexivity.
Defined.

(** ** Invariants of the collection *)

Lemma replace_all_valid (s : Shop) (l : list Shop) :
  validate s = true -> all_valid l = true -> all_valid (replace s l) = true.
Proof.
  unfold all_valid. intros Hs. induction l as [ | d l IH]; [done | ].
  cbn [replace forallb]. intros H. apply andb_true_iff in H as [Hd Hl].
  destruct (has_oid (_id s) d); cbn [forallb]; apply andb_true_iff; auto.
Qed.

Lemma remove_first_all_valid (k : string) (l : list Shop) :
  all_valid l = true -> all_valid (remove_first k l) = true.
Proof.
  unfold all_valid. induction l as [ | d l IH]; [done | ].
  cbn [remove_first forallb]. intros H. apply andb_true_iff in H as [Hd Hl].
  destruct (has_id k d); [done | ]. cbn [forallb]. apply andb_true_iff. auto.
Qed.

Lemma serve_all_valid (e : Env) (r : Request) (w : World) :
  all_valid (db w) = true -> all_valid (db (snd (serve e r w))) = true.
Proof.
  intros Hv. unfold serve.
  destruct (route e r w) as [c w'] eqn:Hroute.
  assert (all_valid (db w') = true) as Hw'; [ | by destruct c].
  change w' with (snd (c, w')). rewrite <- Hroute. clear Hroute.
  destruct r as [ | k | rb u | k rb u | k].
  - cbn [route]. by rewrite get_shops_db.
  - cbn [route]. by rewrite get_shop_db.
  - destruct (route_post_cases e rb u w)
      as [(m & _ & ->) | (file & w1 & evs & _ & -> & _ & Hdb & _)]; [done | ].
    rewrite <- Hdb in Hv. rewrite create_shop_handler_run.
    destruct rb as [body | ]; [ | done].
    rewrite create_shop_run. cbv zeta.
    destruct (validate (created e body file)) eqn:Hnew; simpl; [ | done].
    destruct (negb (db_fault e 0) && fresh e w1); proj; [ | done].
    unfold all_valid in *. rewrite forallb_app, Hv. simpl. by rewrite Hnew.
  - destruct (route_put_cases e k rb u w)
      as [(m & _ & ->) | (file & w1 & evs & _ & -> & _ & Hdb & _)]; [done | ].
    rewrite <- Hdb in Hv. rewrite update_shop_handler_run.
    destruct rb as [body | ].
    + rewrite update_shop_run. destruct (db_fault e 0); [done | ].
      destruct (List.find (has_id k) (db w1)) as [old | ]; [ | done].
      cbv zeta. destruct (validate (updated e body file old)) eqn:Hnew; [ | done].
      destruct (db_fault e 1); proj; [done | ].
      by apply replace_all_valid.
    + destruct (db_fault e 0); [done | ].
      by destruct (List.find (has_id k) (db w1)).
  - cbn [route]. rewrite delete_shop_run. destruct (db_fault e 0); [done | ].
    destruct (List.find (has_id k) (db w)); [ | done].
    cbv zeta. destruct (db_fault e 1); proj; [done | ].
    by apply remove_first_all_valid.
Qed.

(** X10: the routes only ever store validated documents.  If every record of
    the collection passes the schema's validation, then so does every record
    after any sequence of requests, whatever the environments answer: no
    request leaves a record with a missing or empty required field. *)
Theorem stored_records_validate (reqs : list (Env * Request)) (w : World) :
  all_valid (db w) = true -> all_valid (db (serve_all reqs w)) = true.
Proof.
  revert w. induction reqs as [ | [e r] reqs IH]; intros w Hv; simpl; [done | ].
  by apply IH, serve_all_valid.
Qed.

Lemma stored_records_validate_witness :
  all_valid
    (db (serve_all [(env_london, PostShop (Some body_no_owner) NoUpload);
                    (env_offline, PutShop "bob" None (Stored new_photo));
                    (env_numeric, PostShop (Some body_ann) (Rejected "Unexpected field"));
                    (env_numeric, PostShop (Some body_ann) NoUpload)] world_two)) = true.
Proof. apply stored_records_validate. reflexivity. Defined.

(** X11: starting from the empty collection, after any sequence of requests
    no two stored records share an identifier or a storage key. *)
Theorem keys_stay_unique (reqs : list (Env * Request)) :
  NoDup (id <$> db (serve_all reqs empty_world))
  /\ NoDup (_id <$> db (serve_all reqs empty_world)).
Proof.
  destruct (serve_all_well_keyed reqs empty_world) as [Hoid Hid]; [ | done].
  split; apply NoDup_nil_2.
Qed.

(** ** The stored place name *)

Lemma string_of_Z_nonempty (n : Z) : string_of_Z n <> "".
Proof. unfold string_of_Z. by destruct (Z.to_int n) as [[] | []]. Qed.

Lemma cast_truthy_nonempty (v : JsVal) :
  truthy v = true -> castable (castString v) = true ->
  exists s, castString v = Str s /\ s <> "".
Proof.
  destruct v as [ | | b | n | s | props | elems]; simpl; try done.
  - intros -> _. by eexists.
  - intros _ _. eexists. split; [done | apply string_of_Z_nonempty].
  - intros Hs _. exists s. split; [done | ].
    by apply negb_true_iff, String.eqb_neq in Hs.
  - intros _. destruct (assoc "_id" props) as [[ | | | | s | | ] | ]; try done.
    destruct (String.eqb_spec s ""); [done | by eexists].
Qed.

(** X12: the place name of a record returned by a successful create or
    update is a non-empty string: [getPlaceName] only returns truthy values,
    so the schema's default is never needed and no empty name is stored. *)
Theorem place_name_never_empty (e : Env) (body : Body) (file : option File)
    (w : World) (shop : Shop) :
  fst (create_shop e body file w) = Normal (mkResponse 201 (JShop shop))
  \/ (exists k, fst (update_shop e k body file w) = Normal (mkResponse 200 (JShop shop))) ->
  exists s, placeName (location shop) = Str s /\ s <> "".
Proof.
  intros [H | [k H]].
  - apply create_shop_201 in H as (-> & Hv & _).
    rewrite validate_created in Hv. apply andb_true_iff in Hv as [_ Hcast].
    rewrite created_placeName.
    apply cast_truthy_nonempty; [apply resolve_truthy | done].
  - apply update_shop_200 in H as (old & _ & -> & Hv & _).
    rewrite validate_updated in Hv. apply andb_true_iff in Hv as [_ Hcast].
    rewrite updated_placeName.
    apply cast_truthy_nonempty; [apply resolve_truthy | done].
Qed.

Lemma place_name_never_empty_witness :
  exists s, placeName (location (created env_numeric body_ann None)) = Str s /\ s <> "".
Proof.
  apply (place_name_never_empty env_numeric body_ann None empty_world).
  left. reflexivity.
Defined.

(** ** The first photo of a shop *)

(** X13: when an update brings an upload for a shop that has no photo yet,
    the handler makes no file-system call at all (not even [existsSync]) and
    leaves the files as they are; when the write succeeds, the stored record
    names the upload. *)
Theorem first_photo_needs_no_removal (e : Env) (k : string) (body : Body) (f : File)
    (w : World) (old : Shop) :
  List.find (has_id k) (db w) = Some old ->
  photo old = "" ->
  db_fault e 0 = false ->
  let r := update_shop e k body (Some f) w in
  files (snd r) = files w
  /\ (exists evs, trace (snd r) = trace w ++ evs
                  /\ forallb (fun ev => negb (is_fs_event ev)) evs = true)
  /\ (validate (updated e body (Some f) old) = true -> db_fault e 1 = false ->
      exists shop, fst r = Normal (mkResponse 200 (JShop shop))
                   /\ photo shop = upload_ref f
                   /\ shop ∈ db (snd r)).
Proof.
  intros Hfind Hphoto Hf0 r. subst r.
  rewrite update_shop_run, Hf0, Hfind. cbv zeta.
  unfold update_files, update_events, removed, removal_events. rewrite Hphoto.
  cbn [String.eqb negb andb]. rewrite app_nil_r.
  assert (forallb (fun ev => negb (is_fs_event ev))
            (EvFindOne k :: geo_events e (body_latitude body) (body_longitude body))
          = true) as Hquiet.
  { unfold geo_events. simpl. by destruct (caught _). }
  pose proof (find_has_id _ _ _ Hfind) as [Hin _].
  destruct (validate (updated e body (Some f) old)) eqn:Hv;
    [destruct (db_fault e 1) eqn:Hf1 | ]; proj; cbn [andb negb].
  - repeat split; try done. by eexists.
  - repeat split.
    + eexists. split; [reflexivity | ]. by rewrite forallb_app, Hquiet.
    + intros _ _. eexists. repeat split.
      apply (elem_of_replace _ old); [done | apply updated_keys].
  - repeat split; try done. by eexists.
Qed.

Lemma first_photo_needs_no_removal_witness :
  files (snd (update_shop env_london "bob" body_ann (Some new_photo) world_two))
  = files world_two
  /\ exists shop,
      fst (update_shop env_london "bob" body_ann (Some new_photo) world_two)
      = Normal (mkResponse 200 (JShop shop))
      /\ photo shop = upload_ref new_photo.
Proof.
  destruct (first_photo_needs_no_removal env_london "bob" body_ann new_photo
              world_two shop_bob) as (Hfiles & _ & Hok); [reflexivity .. | ].
  split; [exact Hfiles | ].
  destruct Hok as (shop & Hrun & Hphoto & _); [reflexivity .. | ].
  by exists shop.
Defined.

(** ** Calls to the geocoder *)

Lemma geocoder_calls_app (a b : list Event) :
  geocoder_calls (a ++ b) = geocoder_calls a + geocoder_calls b.
Proof. unfold geocoder_calls. by rewrite List.filter_app, length_app. Qed.

Lemma geocoder_calls_geo (e : Env) (lat lon : JsVal) :
  geocoder_calls (geo_events e lat lon) = 1.
Proof. unfold geo_events, geocoder_calls. simpl. by destruct (caught _). Qed.

Lemma geocoder_calls_removal (photo : string) (fs : gset string) :
  geocoder_calls (removal_events photo fs) = 0.
Proof.
  unfold removal_events, geocoder_calls.
  destruct (String.eqb photo ""); [done | ]. simpl. by case_bool_decide.
Qed.

(** X14: the geocoder is called at most once per request, and only by a
    write whose handler gets to read a body.  Serving a list, a look-up or a
    delete makes no call.  A create makes exactly one call when multer
    accepted the upload and [req.body] is defined, even when the request is
    then rejected by validation, and none when multer rejected the upload or
    [req.body] is undefined.  An update makes exactly one call when, in
    addition, the look-up worked and found the record, and none otherwise. *)
Theorem geocoder_called_once_per_write (e : Env) (r : Request) (w : World) :
  exists evs,
    trace (snd (route e r w)) = trace w ++ evs
    /\ geocoder_calls evs
       = match r with
         | GetShops | GetShop _ | DeleteShop _ => 0
         | PostShop req_body u => if parsed req_body u then 1 else 0
         | PutShop k req_body u =>
             if parsed req_body u && negb (db_fault e 0)
             then match List.find (has_id k) (db w) with Some _ => 1 | None => 0 end
             else 0
         end.
Proof.
  destruct r as [ | k | rb u | k rb u | k].
  - cbn [route]. rewrite get_shops_run. destruct (db_fault e 0); proj.
    + exists []. by rewrite app_nil_r.
    + by exists [EvFind].
  - cbn [route]. rewrite get_shop_run.
    destruct (db_fault e 0); [exists []; by rewrite app_nil_r | ].
    destruct (List.find (has_id k) (db w)); by exists [EvFindOne k].
  - destruct (route_post_cases e rb u w)
      as [(m & -> & ->) | (file & w1 & evs & -> & -> & _ & _ & _ & Htr & Hcalls & _)].
    { exists []. by rewrite app_nil_r. }
    rewrite create_shop_handler_run.
    assert (parsed rb (accepted file) = match rb with Some _ => true | None => false end)
      as -> by (destruct file; by destruct rb).
    destruct rb as [body | ]; [ | by exists evs].
    rewrite create_shop_run. cbv zeta. unfold with_trace.
    destruct (_ && _); proj; rewrite Htr, <- !app_assoc; eexists; (split; [reflexivity | ]);
      rewrite !geocoder_calls_app, Hcalls, geocoder_calls_geo; done.
  - destruct (route_put_cases e k rb u w)
      as [(m & -> & ->) | (file & w1 & evs & -> & -> & _ & Hdb & _ & Htr & Hcalls & _)].
    { exists []. by rewrite app_nil_r. }
    rewrite update_shop_handler_run.
    assert (parsed rb (accepted file) = match rb with Some _ => true | None => false end)
      as -> by (destruct file; by destruct rb).
    destruct rb as [body | ].
    + rewrite update_shop_run, Hdb. destruct (db_fault e 0); [by exists evs | ].
      cbn [andb negb].
      destruct (List.find (has_id k) (db w)) as [old | ].
      * cbv zeta. unfold update_events.
        assert (geocoder_calls
                  match file with
                  | Some _ => removal_events (photo old) (files w1)
                  | None => []
                  end = 0) as Hrem.
        { destruct file; [apply geocoder_calls_removal | done]. }
        destruct (_ && _); proj; rewrite Htr, <- !app_assoc;
          eexists; (split; [reflexivity | ]);
          change (EvFindOne k :: ?l) with ([EvFindOne k] ++ l);
          rewrite !geocoder_calls_app, Hcalls, geocoder_calls_geo, Hrem; done.
      * unfold with_trace. proj. rewrite Htr, <- app_assoc.
        eexists. split; [reflexivity | ]. by rewrite geocoder_calls_app, Hcalls.
    + cbn [andb]. rewrite Hdb. destruct (db_fault e 0); [by exists evs | ].
      destruct (List.find (has_id k) (db w)); unfold with_trace; proj;
        rewrite Htr, <- app_assoc; eexists; (split; [reflexivity | ]);
        by rewrite geocoder_calls_app, Hcalls.
  - cbn [route]. rewrite delete_shop_run.
    destruct (db_fault e 0); [exists []; by rewrite app_nil_r | ].
    destruct (List.find (has_id k) (db w)) as [old | ]; [ | by exists [EvFindOne k]].
    cbv zeta. destruct (db_fault e 1); proj; eexists; (split; [reflexivity | ]);
      change (EvFindOne k :: ?l) with ([EvFindOne k] ++ l);
      rewrite !geocoder_calls_app, geocoder_calls_removal; done.
Qed.

(** ** Assets stay consistent when the store works *)

Lemma photo_on_disk_removed (fs : gset string) (s : Shop) (gone : string) :
  photo s <> gone -> photo_on_disk fs s = true ->
  photo_on_disk (removed gone fs) s = true.
Proof.
  unfold photo_on_disk. intros Hne H.
  apply orb_true_iff in H as [H | H]; apply orb_true_iff; [by left | right].
  apply bool_decide_eq_true_1 in H. apply bool_decide_eq_true_2.
  apply removed_spec. split; [done | ]. right.
  intros Heq. by apply public_path_inj in Heq.
Qed.

Lemma remove_first_elem (k : string) (l : list Shop) (s : Shop) :
  s ∈ remove_first k l -> s ∈ l.
Proof.
  induction l as [ | d l IH]; [done | ]. simpl.
  destruct (has_id k d); rewrite ?elem_of_cons; naive_solver.
Qed.

Lemma elem_of_replace_inv (s x : Shop) (l : list Shop) :
  NoDup (_id <$> l) -> x ∈ replace s l -> x = s \/ (x ∈ l /\ _id x <> _id s).
Proof.
  induction l as [ | d l IH]; [intros _ H; by apply elem_of_nil in H | ].
  rewrite fmap_cons. intros Hnd. apply NoDup_cons in Hnd as [Hd Hnd].
  cbn [replace]. unfold has_oid at 1.
  destruct (Nat.eqb_spec (_id d) (_id s)) as [Heq | Hne]; rewrite !elem_of_cons.
  - intros [-> | Hx]; [by left | right]. split; [by right | ].
    intros Hx'. apply Hd. rewrite Heq, <- Hx'. by apply list_elem_of_fmap_2.
  - intros [-> | Hx]; [right; split; [by left | done] | ].
    destruct (IH Hnd Hx) as [-> | [Hin Hne']]; [by left | right].
    split; [by right | done].
Qed.

(** X15: a successful delete keeps the store free of dangling references,
    provided the identifiers are pairwise distinct and, when the deleted
    record names a photo, no other record names the same photo.  Deleting a
    shop that has no photo needs no condition on the photos at all. *)
Theorem delete_keeps_assets (e : Env) (k : string) (w : World) (old : Shop) :
  consistent w = true ->
  NoDup (id <$> db w) ->
  List.find (has_id k) (db w) = Some old ->
  (forall s, s ∈ db w -> photo old <> "" -> photo s = photo old -> s = old) ->
  db_fault e 0 = false -> db_fault e 1 = false ->
  consistent (snd (delete_shop e k w)) = true.
Proof.
  intros Hcons Hnd Hfind Hown Hf0 Hf1.
  rewrite delete_shop_run, Hf0, Hfind. cbv zeta. rewrite Hf1.
  unfold consistent in *. proj. rewrite forallb_forall in *.
  intros s Hs. apply list_elem_of_In in Hs.
  pose proof (find_has_id _ _ _ Hfind) as [_ Hk].
  pose proof (remove_first_gone k (db w) Hnd) as Hgone.
  rewrite find_none_iff in Hgone. specialize (Hgone s Hs).
  apply remove_first_elem in Hs.
  destruct (String.eqb_spec (photo old) "") as [Hempty | Hphoto].
  - rewrite Hempty. change (removed "" (files w)) with (files w).
    by apply Hcons, list_elem_of_In.
  - apply photo_on_disk_removed; [ | by apply Hcons, list_elem_of_In].
    intros Heq. apply Hown in Heq; [ | done | done]. congruence.
Qed.

Lemma delete_keeps_assets_witness :
  consistent (snd (delete_shop env_london "abc" world_two)) = true
  /\ consistent (snd (delete_shop env_london "bob" world_shelf)) = true.
Proof.
  split.
  - apply (delete_keeps_assets env_london "abc" world_two shop_ann); try reflexivity.
    + apply NoDup_cons. split; [ | apply NoDup_singleton].
      intros Hin. apply list_elem_of_singleton in Hin. discriminate.
    + intros s Hs _ Hphoto. apply elem_of_cons in Hs as [-> | Hs]; [done | ].
      apply list_elem_of_singleton in Hs. subst s. discriminate.
  - apply (delete_keeps_assets env_london "bob" world_shelf shop_bob); try reflexivity.
    + apply NoDup_cons. split; [ | apply NoDup_singleton].
      intros Hin. apply list_elem_of_singleton in Hin. discriminate.
    + intros s Hs Hphoto. by destruct Hphoto.
Defined.

(** X16: the PUT route as a whole, middleware and handler, replaces a photo
    cleanly when the store works: in a collection with unique keys where
    every named photo is on disk, if no other record names the old photo and
    no record names the new upload yet, a valid update with an upload
    answers 200, the stored record names the upload, the upload is on disk,
    the old photo is gone, and every photo named by a record is still on
    disk. *)
Theorem put_route_replaces_photo (e : Env) (k : string) (body : Body) (f : File)
    (w : World) (old : Shop) :
  consistent w = true ->
  well_keyed (db w) ->
  List.find (has_id k) (db w) = Some old ->
  (forall s, s ∈ db w -> photo s = photo old -> s = old) ->
  (forall s, s ∈ db w -> photo s <> upload_ref f) ->
  db_fault e 0 = false -> db_fault e 1 = false ->
  validate (updated e body (Some f) old) = true ->
  let r := put_route e k body (Some f) w in
  fst r = Normal (mkResponse 200 (JShop (updated e body (Some f) old)))
  /\ photo (updated e body (Some f) old) = upload_ref f
  /\ public_path (upload_ref f) ∈ files (snd r)
  /\ (photo old <> "" -> public_path (photo old) ∉ files (snd r))
  /\ consistent (snd r) = true.
Proof.
  intros Hcons [Hoid _] Hfind Hown Hnew Hf0 Hf1 Hv r. subst r.
  unfold put_route, bind.
  destruct (upload_single_run (Some f) w) as (w1 & -> & Hdb & Hfiles).
  rewrite <- Hdb in Hfind. rewrite (update_shop_ok _ _ _ _ _ old) by done.
  rewrite Hdb in Hfind. pose proof (find_has_id _ _ _ Hfind) as [Hin _].
  proj. unfold update_files. rewrite Hfiles, Hdb.
  assert (public_path (upload_ref f)
          ∈ removed (photo old) ({[public_path (upload_ref f)]} ∪ files w)) as Hdisk.
  { apply removed_spec. split; [set_solver | ]. right.
    intros Heq. apply public_path_inj in Heq. by apply (Hnew old). }
  repeat split; [done | by apply removed_gone | ].
  unfold consistent in *. proj. rewrite forallb_forall in *.
  intros x Hx. apply list_elem_of_In, (elem_of_replace_inv _ _ _ Hoid) in Hx.
  destruct Hx as [-> | [Hx Hne]].
  - unfold photo_on_disk. apply orb_true_iff. right. by apply bool_decide_eq_true_2.
  - apply photo_on_disk_removed.
    + intros Heq. apply Hown in Heq; [ | done]. subst x.
      apply Hne. symmetry. apply updated_keys.
    + apply (photo_on_disk_mono (files w)); [set_solver | ].
      by apply Hcons, list_elem_of_In.
Qed.

Lemma put_route_replaces_photo_witness :
  fst (put_route env_london "abc" body_ann (Some new_photo) world_two)
  = Normal (mkResponse 200 (JShop (updated env_london body_ann (Some new_photo) shop_ann)))
  /\ consistent (snd (put_route env_london "abc" body_ann (Some new_photo) world_two))
     = true.
Proof.
  destruct (put_route_replaces_photo env_london "abc" body_ann new_photo world_two
              shop_ann) as (Hrun & _ & _ & _ & Hcons); try reflexivity.
  - split; (apply NoDup_cons; split; [ | apply NoDup_singleton]);
      intros Hin; apply list_elem_of_singleton in Hin; discriminate.
  - intros s Hs Hphoto. apply elem_of_cons in Hs as [-> | Hs]; [done | ].
    apply list_elem_of_singleton in Hs. subst s. discriminate.
  - intros s Hs. apply elem_of_cons in Hs as [-> | Hs]; [discriminate | ].
    apply list_elem_of_singleton in Hs. subst s. discriminate.
  - split; [exact Hrun | exact Hcons].
Defined.

(** ** Requests that fail, and requests that undo each other *)



Lemma remove_first_snoc_fresh (k : string) (l : list Shop) (s : Shop) :
  existsb (has_id k) l = false -> id s = k -> remove_first k (l ++ [s]) = l.
Proof.
  intros Hnone Hk. induction l as [ | d l IH]; simpl in *.
  - unfold has_id. by rewrite Hk, String.eqb_refl.
  - apply orb_false_iff in Hnone as [-> Hnone]. f_equal. by apply IH.
Qed.

(** X18: a delete undoes a create.  When the create route answered 201 with
    a record, deleting that record's identifier, with a working store,
    answers 200 and brings the collection back to what it was before the
    create; the upload of the create, if any, is no longer on disk, and every
    other file is on disk exactly when it was before the create. *)
Theorem create_then_delete (e e' : Env) (body : Body) (file : option File)
    (w : World) (shop : Shop) :
  fst (post_route e body file w) = Normal (mkResponse 201 (JShop shop)) ->
  db_fault e' 0 = false -> db_fault e' 1 = false ->
  let w' := snd (post_route e body file w) in
  let w'' := snd (delete_shop e' (id shop) w') in
  fst (delete_shop e' (id shop) w') = Normal (mkResponse 200 (JMessage "Shop deleted"))
  /\ db w'' = db w
  /\ (forall f, file = Some f -> public_path (upload_ref f) ∉ files w'')
  /\ (forall p, (forall f, file = Some f -> p <> public_path (upload_ref f)) ->
                p ∈ files w'' <-> p ∈ files w).
Proof.
  destruct (post_route_run e body file w) as (w1 & -> & Hdb & Hfiles).
  intros Hrun Hf0 Hf1.
  pose proof (create_shop_201 _ _ _ _ _ Hrun) as (-> & Hv & Hf & Hfresh & Hafter).
  rewrite (create_shop_ok _ _ _ _ Hv Hf Hfresh) in *. clear Hrun Hafter. cbv zeta. proj.
  assert (existsb (has_id (uuidv4 e)) (db w1) = false) as Hnone.
  { unfold fresh in Hfresh. apply andb_true_iff in Hfresh as [Hid _].
    by apply negb_true_iff in Hid. }
  change (id (created e body file)) with (uuidv4 e).
  rewrite delete_shop_run, Hf0. proj.
  rewrite (find_snoc_fresh _ _ (created e body file) Hnone) by done.
  cbv zeta. rewrite Hf1. proj.
  rewrite (remove_first_snoc_fresh _ _ (created e body file) Hnone) by done.
  change (photo (created e body file))
    with (match file with Some f => upload_ref f | None => "" end).
  split; [done | split; [done | split]].
  - intros f ->. apply removed_gone. unfold upload_ref. discriminate.
  - intros p Hp. rewrite removed_spec, Hfiles. destruct file as [f | ].
    + specialize (Hp f eq_refl). set_solver.
    + naive_solver.
Qed.

Lemma create_then_delete_witness :
  db (snd (delete_shop env_offline (uuidv4 env_london)
             (snd (post_route env_london body_ann (Some new_photo) world_two))))
  = db world_two
  /\ (public_path (upload_ref new_photo)
      ∉ files (snd (delete_shop env_offline (uuidv4 env_london)
                      (snd (post_route env_london body_ann (Some new_photo) world_two))))).
Proof.
  destruct (create_then_delete env_london env_offline body_ann (Some new_photo)
              world_two (created env_london body_ann (Some new_photo)))
    as (_ & Hdb & Hgone & _); [reflexivity .. | ].
  split; [exact Hdb | by apply Hgone].
Defined.

(** X19: after a successful create, the list route, with a working store,
    answers 200 with the records that were there before, in their order,
    followed by the new record. *)
Theorem create_then_list (e e' : Env) (body : Body) (file : option File)
    (w : World) (shop : Shop) :
  fst (post_route e body file w) = Normal (mkResponse 201 (JShop shop)) ->
  db_fault e' 0 = false ->
  fst (get_shops e' (snd (post_route e body file w)))
  = Normal (mkResponse 200 (JShops (db w ++ [shop]))).
Proof.
  destruct (post_route_run e body file w) as (w1 & -> & Hdb & _).
  intros Hrun Hf'. apply create_shop_201 in Hrun as (_ & _ & _ & _ & Hafter).
  by rewrite get_shops_run, Hf', Hafter, Hdb.
Qed.

Lemma create_then_list_witness :
  fst (get_shops env_offline (snd (post_route env_london body_ann None world_two)))
  = Normal (mkResponse 200
              (JShops [shop_ann; shop_bob; created env_london body_ann None])).
Proof.
  apply (create_then_list env_london env_offline body_ann None world_two);
    reflexivity.
Defined.
